(** * Diary analysis plugin: parser, content analyzer and timeline generator

    A shallow embedding of the TypeScript sources
    [core/parser.ts] (class [DiaryParser]), [core/analyzer.ts] (class
    [ContentAnalyzer]) and [core/timeline.ts] (class [TimelineGenerator]),
    and of the pipeline of [main.ts] that joins them, together with the
    JavaScript primitives they call, followed by the properties of the
    heuristic analysis pipeline and the timeline aggregation. *)

From Stdlib Require Import ZArith NArith List Bool Lia String Ascii.
From Stdlib Require Import Sorting.Sorted Sorting.Permutation.
From Stdlib Require DecimalString.
Import ListNotations.

Local Open Scope Z_scope.

(* ================================================================== *)
(** * JavaScript primitives *)
(* ================================================================== *)

Module Js.

(** A JavaScript string is a sequence of UTF-16 code units; [length],
    [substring], [split] and regular expressions without the [u] flag all
    work on code units. *)
Definition code_unit := N.
Definition str := list code_unit.

(** ** Literals: source text is UTF-8, a JS string holds UTF-16 *)

Definition cont (b : N) : N := N.land b 63.

Definition utf16_of_code_point (cp : N) : str :=
  if (cp <? 65536)%N then [cp]
  else let v := (cp - 65536)%N in
       [(55296 + N.shiftr v 10)%N; (56320 + N.land v 1023)%N].

Fixpoint utf16_of_utf8 (bs : list N) : str :=
  match bs with
  | [] => []
  | b0 :: r0 =>
    if (b0 <? 128)%N then b0 :: utf16_of_utf8 r0
    else match r0 with
         | [] => [65533%N]
         | b1 :: r1 =>
           if (b0 <? 224)%N then
             (N.shiftl (N.land b0 31) 6 + cont b1)%N :: utf16_of_utf8 r1
           else match r1 with
                | [] => [65533%N]
                | b2 :: r2 =>
                  if (b0 <? 240)%N then
                    (N.shiftl (N.land b0 15) 12 + N.shiftl (cont b1) 6
                     + cont b2)%N :: utf16_of_utf8 r2
                  else match r2 with
                       | [] => [65533%N]
                       | b3 :: r3 =>
                         utf16_of_code_point
                           (N.shiftl (N.land b0 7) 18
                            + N.shiftl (cont b1) 12
                            + N.shiftl (cont b2) 6 + cont b3)%N
                         ++ utf16_of_utf8 r3
                       end
                end
         end
  end.

Definition js (s : string) : str :=
  utf16_of_utf8 (map N_of_ascii (list_ascii_of_string s)).

(** ** String equality, [startsWith], [includes] *)

Fixpoint eqb (a b : str) : bool :=
  match a, b with
  | [], [] => true
  | x :: a', y :: b' => N.eqb x y && eqb a' b'
  | _, _ => false
  end.

Fixpoint startsWith (s p : str) : bool :=
  match p, s with
  | [], _ => true
  | x :: p', y :: s' => N.eqb x y && startsWith s' p'
  | _ :: _, [] => false
  end.

Fixpoint includes (s p : str) : bool :=
  startsWith s p ||
  match s with
  | [] => false
  | _ :: s' => includes s' p
  end.

(** [s.length] as a JS number. *)
Definition length (s : str) : Z := Z.of_nat (List.length s).

(** JS truthiness of a string: only the empty string is falsy. *)
Definition truthy (s : str) : bool :=
  match s with [] => false | _ :: _ => true end.

(** ** Character classes *)

Definition between (lo c hi : N) : bool := ((lo <=? c) && (c <=? hi))%N.

(** [\d] (without the [u] or [i] flags): ASCII digits only. *)
Definition isDigit (c : N) : bool := between 48 c 57.

(** [\s], which is also the character set removed by [trim] and skipped
    by [parseInt]: WhiteSpace and LineTerminator of ECMA-262. *)
Definition isWhiteSpace (c : N) : bool :=
  between 9 c 13 || N.eqb c 32 || N.eqb c 160 || N.eqb c 5760
  || between 8192 c 8202 || N.eqb c 8232 || N.eqb c 8233
  || N.eqb c 8239 || N.eqb c 8287 || N.eqb c 12288 || N.eqb c 65279.

(** LineTerminator: what [.] refuses and [$] with the [m] flag looks for. *)
Definition isLineTerminator (c : N) : bool :=
  N.eqb c 10 || N.eqb c 13 || N.eqb c 8232 || N.eqb c 8233.

Fixpoint takeWhile (p : N -> bool) (s : str) : str :=
  match s with
  | [] => []
  | c :: s' => if p c then c :: takeWhile p s' else []
  end.

Fixpoint dropWhile (p : N -> bool) (s : str) : str :=
  match s with
  | [] => []
  | c :: s' => if p c then dropWhile p s' else s
  end.

(** ** [trim] *)

Definition trimStart (s : str) : str := dropWhile isWhiteSpace s.
Definition trimEnd (s : str) : str := rev (dropWhile isWhiteSpace (rev s)).
Definition trim (s : str) : str := trimEnd (trimStart s).

(** ** [substring(0, n)] for a non-negative integer [n] *)
Definition substring0 (s : str) (n : Z) : str :=
  firstn (Z.to_nat n) s.

(** ** [split] *)

(** [s.split(sep)] for a non-empty string separator: cut at every
    occurrence, scanning left to right, occurrences not overlapping.
    [cur] is the piece being read (reversed), [skip] the number of code
    units of a found separator still to pass. *)
Fixpoint split_go (sep s cur : str) (skip : nat) : list str :=
  match s with
  | [] => [rev cur]
  | c :: s' =>
    match skip with
    | S k => split_go sep s' cur k
    | O =>
      if startsWith s sep
      then rev cur :: split_go sep s' [] (List.length sep - 1)
      else split_go sep s' (c :: cur) 0
    end
  end.

Definition split (s sep : str) : list str := split_go sep s [] 0.

(** [s.split(/[...]/)] for a regular expression that is one character
    class: cut at every code unit of the class. *)
Fixpoint split_class_go (p : N -> bool) (s cur : str) : list str :=
  match s with
  | [] => [rev cur]
  | c :: s' =>
    if p c then rev cur :: split_class_go p s' []
    else split_class_go p s' (c :: cur)
  end.

Definition split_class (s : str) (p : N -> bool) : list str :=
  split_class_go p s [].

(** [s.split(/\s+/)]: cut at every maximal run of white space.  A run at
    the start or at the end leaves an empty piece there. *)
Fixpoint split_ws_go (s cur : str) (in_run : bool) : list str :=
  match s with
  | [] => [rev cur]
  | c :: s' =>
    if isWhiteSpace c then
      if in_run then split_ws_go s' [] true
      else rev cur :: split_ws_go s' [] true
    else split_ws_go s' (c :: cur) false
  end.

Definition split_ws (s : str) : list str := split_ws_go s [] false.

(** ** [s.match(new RegExp(word, 'g'))] for a literal [word]

    The number of matches: occurrences found left to right, the search
    resuming after the end of each match. *)
Fixpoint count_matches_go (word s : str) (skip : nat) : Z :=
  match s with
  | [] => 0
  | _ :: s' =>
    match skip with
    | S k => count_matches_go word s' k
    | O =>
      if startsWith s word
      then 1 + count_matches_go word s' (List.length word - 1)
      else count_matches_go word s' 0
    end
  end.

Definition count_matches (s word : str) : Z := count_matches_go word s 0.

(** ** [parseInt(s)] with no radix

    [None] stands for [NaN].  Leading white space is skipped, a sign is
    read, a [0x]/[0X] prefix selects radix 16, and the longest run of
    digits of the radix is the value.  (A value beyond 2^53 is rounded by
    JavaScript; the range tests of the callers cannot tell.) *)
Definition digit_value (radix c : N) : option Z :=
  let v :=
    if between 48 c 57 then Some (c - 48)%N
    else if between 97 c 122 then Some (c - 87)%N
    else if between 65 c 90 then Some (c - 55)%N
    else None in
  match v with
  | Some d => if (d <? radix)%N then Some (Z.of_N d) else None
  | None => None
  end.

Fixpoint digits_value (radix : N) (s : str) (acc : Z) : Z :=
  match s with
  | [] => acc
  | c :: s' =>
    match digit_value radix c with
    | Some d => digits_value radix s' (acc * Z.of_N radix + d)
    | None => acc
    end
  end.

Definition has_digit (radix : N) (s : str) : bool :=
  match s with
  | [] => false
  | c :: _ => match digit_value radix c with Some _ => true | None => false end
  end.

Definition parseInt (input : str) : option Z :=
  let s := trimStart input in
  let '(sign, s) :=
    match s with
    | 45%N :: r => (-1, r)
    | 43%N :: r => (1, r)
    | _ => (1, s)
    end in
  let '(radix, s) :=
    match s with
    | 48%N :: 120%N :: r => (16%N, r)
    | 48%N :: 88%N :: r => (16%N, r)
    | _ => (10%N, s)
    end in
  if has_digit radix s then Some (sign * digits_value radix s 0) else None.

(** ** Arrays *)

(** [a.slice(0, end)] for an integer [end]: a negative [end] counts from
    the back. *)
Definition slice0 {A} (a : list A) (e : Z) : list A :=
  let len := Z.of_nat (List.length a) in
  let final := if e <? 0 then Z.max (len + e) 0 else Z.min e len in
  firstn (Z.to_nat final) a.

(** [a.sort(cmp)]: the sort is stable, and [cmp x y <= 0] keeps [x]
    before [y].  For a consistent comparator every stable algorithm
    gives this result; insertion from the right is the simplest. *)
Fixpoint sort_insert {A} (cmp : A -> A -> Z) (x : A) (l : list A) : list A :=
  match l with
  | [] => [x]
  | y :: l' =>
    if cmp x y <=? 0 then x :: l else y :: sort_insert cmp x l'
  end.

Fixpoint sort {A} (cmp : A -> A -> Z) (a : list A) : list A :=
  match a with
  | [] => []
  | x :: a' => sort_insert cmp x (sort cmp a')
  end.

(** ** [Map<string, number>] and [Set<string>]

    Both iterate in insertion order; setting a key that is present keeps
    its place. *)
Definition map_t := list (str * Z).

Fixpoint map_get (m : map_t) (k : str) : option Z :=
  match m with
  | [] => None
  | (k', v) :: m' => if eqb k' k then Some v else map_get m' k
  end.

Fixpoint map_set (m : map_t) (k : str) (v : Z) : map_t :=
  match m with
  | [] => [(k, v)]
  | (k', v') :: m' =>
    if eqb k' k then (k', v) :: m' else (k', v') :: map_set m' k v
  end.

(** [x || 0] for [x] of type [number | undefined]: [undefined] and the
    falsy number [0] both give [0]. *)
Definition or_zero (x : option Z) : Z :=
  match x with
  | Some v => v
  | None => 0
  end.

Definition set_t := list str.

Fixpoint set_has (s : set_t) (k : str) : bool :=
  match s with
  | [] => false
  | k' :: s' => eqb k' k || set_has s' k
  end.

Definition set_add (s : set_t) (k : str) : set_t :=
  if set_has s k then s else s ++ [k].

(** [new Set(a)] followed by spreading it into an array. *)
Definition set_of_array (a : list str) : set_t :=
  fold_left set_add a [].

(** ** [s.match(re)] without the [g] flag

    The leftmost position at which the expression matches; [at_pos]
    tries the expression at the start of a suffix. *)
Fixpoint search {A} (at_pos : str -> option A) (s : str) : option A :=
  match at_pos s with
  | Some m => Some m
  | None =>
    match s with
    | [] => None
    | _ :: s' => search at_pos s'
    end
  end.

(** [s.replace(c, '')] for a one-character string [c]: the first
    occurrence is removed. *)
Fixpoint remove_first (c : N) (s : str) : str :=
  match s with
  | [] => []
  | x :: s' => if N.eqb x c then s' else x :: remove_first c s'
  end.

(** ** Errors *)

Inductive exn : Type :=
| Error (message : str)
| TypeError (message : str).

Inductive result (A : Type) : Type :=
| Ok (a : A)
| Throw (e : exn).
Arguments Ok {A} a.
Arguments Throw {A} e.

Definition bind {A B} (r : result A) (k : A -> result B) : result B :=
  match r with
  | Ok a => k a
  | Throw e => Throw e
  end.

(** ** [a.join(sep)] *)
Fixpoint join (sep : str) (a : list str) : str :=
  match a with
  | [] => []
  | x :: r =>
    match r with
    | [] => x
    | _ :: _ => x ++ sep ++ join sep r
    end
  end.

(** ** [String(n)] for an integer [n] (of magnitude below 10^21) *)
Definition numberToString (n : Z) : str :=
  js (DecimalString.NilZero.string_of_int (Z.to_int n)).

End Js.

Import Js.

(* ================================================================== *)
(** * types/index.ts *)
(* ================================================================== *)

(** A [Date] holding an instant: its time value, in milliseconds since the
    epoch.  [a < b] on two dates compares the time values.

    A field name that two interfaces share carries a prefix here: [dc_] in
    [DiaryContent], [ar_] in [AnalysisResult], [te_] in [TimelineEntry]. *)
Record Date : Type := mkDate { getTime : Z }.

Record Metadata : Type := mkMetadata {
  title : option str;
  tags : option (list str);
  mood : option Z
}.

Record DiaryContent : Type := mkDiaryContent {
  dc_date : Date;
  content : str;
  metadata : Metadata
}.

Record AnalysisResult : Type := mkAnalysisResult {
  ar_keywords : list str;
  ar_moodScore : Z;
  ar_summary : str;
  ar_activities : list str
}.

Record TimelineEntry : Type := mkTimelineEntry {
  id : str;
  date : Date;
  te_title : str;
  summary : str;
  keywords : list str;
  moodScore : Z;
  activities : list str
}.

(* ================================================================== *)
(** * core/parser.ts *)
(* ================================================================== *)

Module DiaryParser.

Record t : Type := mk { diaryFolder : str; dateFormat : str }.

(** [/(\d{4}[-/]\d{2}[-/]\d{2})/] tried at the start of [s]. *)
Definition isDateSep (c : N) : bool := N.eqb c 45 || N.eqb c 47.

Definition dateRegex_at (s : str) : option str :=
  match s with
  | y1 :: y2 :: y3 :: y4 :: s1 :: m1 :: m2 :: s2 :: d1 :: d2 :: _ =>
    if isDigit y1 && isDigit y2 && isDigit y3 && isDigit y4
       && isDateSep s1 && isDigit m1 && isDigit m2
       && isDateSep s2 && isDigit d1 && isDigit d2
    then Some [y1; y2; y3; y4; s1; m1; m2; s2; d1; d2]
    else None
  | _ => None
  end.

(** [/心情[：:]\s*(\d+)/] tried at the start of [s]; the result is the
    captured group.  White space and digits are disjoint, so the greedy
    reading is the only one. *)
Definition isMoodColon (c : N) : bool := N.eqb c 65306 || N.eqb c 58.

Definition moodRegex_at (s : str) : option str :=
  match s with
  | 24515%N :: 24773%N :: c :: r =>
    if isMoodColon c then
      match takeWhile isDigit (dropWhile isWhiteSpace r) with
      | [] => None
      | ds => Some ds
      end
    else None
  | _ => None
  end.

(** [/^#\s+(.+)$/m].  After the [#], the white-space run is taken as long
    as possible and given back one code unit at a time until a
    non-empty rest of line follows it. *)
Definition rest_of_line (s : str) : option str :=
  match takeWhile (fun c => negb (isLineTerminator c)) s with
  | [] => None
  | cap => Some cap
  end.

Fixpoint spaces_then_line (s : str) : option str :=
  match s with
  | [] => None
  | c :: s' =>
    if isWhiteSpace c then
      match spaces_then_line s' with
      | Some cap => Some cap
      | None => rest_of_line s'
      end
    else None
  end.

Definition titleRegex_at (s : str) : option str :=
  match s with
  | 35%N :: r => spaces_then_line r
  | _ => None
  end.

(** [^] with the [m] flag holds at the start and after a line
    terminator. *)
Fixpoint titleRegex_search (s : str) (line_start : bool) : option str :=
  match s with
  | [] => None
  | c :: s' =>
    match (if line_start then titleRegex_at s else None) with
    | Some cap => Some cap
    | None => titleRegex_search s' (isLineTerminator c)
    end
  end.

(** [/(?:^|\s)#([^\s#]+)/g]: the whole matches, left to right. *)
Definition isTagChar (c : N) : bool := negb (isWhiteSpace c || N.eqb c 35).

Definition hash_word (s : str) : option str :=
  match s with
  | 35%N :: r =>
    match takeWhile isTagChar r with
    | [] => None
    | w => Some (35%N :: w)
    end
  | _ => None
  end.

Definition tagRegex_at (s : str) (input_start : bool) : option str :=
  match (if input_start then hash_word s else None) with
  | Some m => Some m
  | None =>
    match s with
    | c :: r =>
      if isWhiteSpace c then
        match hash_word r with
        | Some m => Some (c :: m)
        | None => None
        end
      else None
    | [] => None
    end
  end.

Fixpoint tagRegex_all (s : str) (input_start : bool) (skip : nat) : list str :=
  match s with
  | [] => []
  | _ :: s' =>
    match skip with
    | S k => tagRegex_all s' false k
    | O =>
      match tagRegex_at s input_start with
      | Some m => m :: tagRegex_all s' false (List.length m - 1)
      | None => tagRegex_all s' false 0
      end
    end
  end.

Definition extractMetadata (content : str) : Metadata :=
  let titleMatch := titleRegex_search content true in
  let title :=
    match titleMatch with
    | Some cap => Some (trim cap)
    | None => None
    end in
  let tags :=
    match tagRegex_all content true 0 with
    | [] => None
    | ms => Some (map (fun tag => remove_first 35 (trim tag)) ms)
    end in
  let moodMatch := search moodRegex_at content in
  let mood :=
    match moodMatch with
    | Some cap => parseInt cap
    | None => None
    end in
  mkMetadata title tags mood.

Section ExtractDate.

(** [moment(input, format)] of the moment.js library: [Some d] when the
    result [isValid()], [d] being its [toDate()]; [None] otherwise. *)
Variable moment : str -> str -> option Date.

(** [now] is what [new Date()] reads from the clock. *)
Definition extractDateInfo (self : t) (fileName content : str) (now : Date)
  : Date :=
  let fileNameDate := moment (nth 0 (split fileName (js ".")) []) (dateFormat self) in
  match fileNameDate with
  | Some d => d
  | None =>
    let fallback :=
      match search dateRegex_at content with
      | Some m =>
        match moment m (js "YYYY-MM-DD") with
        | Some d => Some d
        | None => None
        end
      | None => None
      end in
    match fallback with
    | Some d => d
    | None => now
    end
  end.

(** [file.name] and the text read from the vault are given. *)
Definition parseDiaryContent (self : t) (fileName content : str) (now : Date)
  : DiaryContent :=
  let date := extractDateInfo self fileName content now in
  let metadata := extractMetadata content in
  mkDiaryContent date content metadata.

End ExtractDate.

(** ** Files *)

(** What the parser reads of an Obsidian [TFile]. *)
Record TFile : Type := mkFile {
  path : str;
  name : str;
  basename : str;
  extension : str
}.

(** [files] is what [this.app.vault.getFiles()] returns. *)
Definition scanDiaryFiles (self : t) (files : list TFile) : list TFile :=
  filter
    (fun file =>
       startsWith (path file) (diaryFolder self)
       && eqb (extension file) (js "md"))
    files.

Section Batch.

Variable moment : str -> str -> option Date.

(** [this.app.vault.read(file)]: the text of the file, or a rejection. *)
Variable read : TFile -> result str.

(** The clock reading while the file at a given place of a batch is
    parsed. *)
Variable clock : nat -> Date.

(** [parseDiaryContent(file)], the read included. *)
Definition parseDiaryFile (self : t) (file : TFile) (now : Date)
  : result DiaryContent :=
  bind (read file) (fun content =>
    Ok (parseDiaryContent moment self (name file) content now)).

(** The loop of [parseMultipleDiaries]: a file whose parse throws is
    logged and passed over. *)
Fixpoint parseMultipleDiaries_from (self : t) (files : list TFile) (index : nat)
  : list DiaryContent :=
  match files with
  | [] => []
  | file :: rest =>
    match parseDiaryFile self file (clock index) with
    | Ok content => content :: parseMultipleDiaries_from self rest (S index)
    | Throw _ => parseMultipleDiaries_from self rest (S index)
    end
  end.

Definition parseMultipleDiaries (self : t) (files : list TFile)
  : list DiaryContent :=
  parseMultipleDiaries_from self files 0.

(** The later version of [extractDateInfo], which guards both sources
    with a truthiness test (and a [try] around a body that, [moment] being
    total, does not throw). *)
Definition extractDateInfo2 (self : t) (fileName content : str) (now : Date)
  : Date :=
  let fromName :=
    if truthy fileName then
      let fileNameWithoutExt := nth 0 (split fileName (js ".")) [] in
      moment fileNameWithoutExt (dateFormat self)
    else None in
  match fromName with
  | Some d => d
  | None =>
    let fromContent :=
      if truthy content then
        match search dateRegex_at content with
        | Some m => moment m (js "YYYY-MM-DD")
        | None => None
        end
      else None in
    match fromContent with
    | Some d => d
    | None => now
    end
  end.

End Batch.

End DiaryParser.

(* ================================================================== *)
(** * core/analyzer.ts *)
(* ================================================================== *)

Module ContentAnalyzer.

(** An AI service ([OpenAIService], [OllamaService]) as the analyzer sees
    it: [complete(prompt)] gives the response text or throws. *)
Record AIService : Type := mkService { complete : str -> result str }.

Record t : Type := mk {
  openAI : option AIService;
  ollama : option AIService;
  maxKeywords : Z
}.

(** ** Keywords by word frequency *)

(** [[^\u4e00-\u9fa5a-zA-Z0-9]] is the complement of this class. *)
Definition isWordChar (c : N) : bool :=
  between 19968 c 40869 || between 97 c 122 || between 65 c 90
  || between 48 c 57.

Definition cleanText (text : str) : str :=
  map (fun c => if isWordChar c then c else 32%N) text.

Definition countWord (wordFreq : map_t) (word : str) : map_t :=
  if 1 <? Js.length word
  then map_set wordFreq word (or_zero (map_get wordFreq word) + 1)
  else wordFreq.

Definition byCountDesc (a b : str * Z) : Z := snd b - snd a.

Definition extractKeywordsWithFrequency (self : t) (text : str) : list str :=
  let words := split_ws (cleanText text) in
  let wordFreq := fold_left countWord words [] in
  map fst (slice0 (sort byCountDesc wordFreq) (maxKeywords self)).

(** ** Mood score *)

Definition positiveWords : list str :=
  [js "开心"; js "快乐"; js "高兴"; js "幸福"; js "满意"; js "成功"; js "喜欢"].
Definition negativeWords : list str :=
  [js "难过"; js "伤心"; js "失望"; js "焦虑"; js "痛苦"; js "生气"; js "讨厌"].

Definition countWords (words : list str) (text : str) : Z :=
  fold_left (fun count word => count + count_matches text word) words 0.

Definition analyzeMoodWithDictionary (text : str) : Z :=
  let score := 3 in
  let positiveCount := countWords positiveWords text in
  let negativeCount := countWords negativeWords text in
  if positiveCount >? negativeCount then
    score + Z.min 2 (positiveCount - negativeCount)
  else if negativeCount >? positiveCount then
    score - Z.min 2 (negativeCount - positiveCount)
  else score.

Definition moodPrompt (text : str) : str :=
  js "请分析以下日记文本的情感倾向，给出1-5的分数（1最消极，5最积极）："
  ++ [10%N; 10%N] ++ text.

(** [score >= 1 && score <= 5]; for [NaN] both comparisons are false. *)
Definition inRange (score : Z) : bool := (1 <=? score) && (score <=? 5).

Definition analyzeMoodWithAI (self : t) (text : str) : result Z :=
  let prompt := moodPrompt text in
  let response :=
    match openAI self with
    | Some service => complete service prompt
    | None =>
      match ollama self with
      | Some service => complete service prompt
      | None => Throw (Error (js "No AI service available"))
      end
    end in
  bind response (fun response =>
    Ok (match parseInt response with
        | Some score => if inRange score then score else 3
        | None => 3
        end)).

Definition hasService (self : t) : bool :=
  match openAI self, ollama self with
  | None, None => false
  | _, _ => true
  end.

Definition analyzeMoodScore (self : t) (text : str) : result Z :=
  let moodMatch := search DiaryParser.moodRegex_at text in
  let explicit :=
    match moodMatch with
    | Some cap =>
      match parseInt cap with
      | Some mood => if inRange mood then Some mood else None
      | None => None
      end
    | None => None
    end in
  match explicit with
  | Some mood => Ok mood
  | None =>
    if hasService self then analyzeMoodWithAI self text
    else Ok (analyzeMoodWithDictionary text)
  end.

(** ** Activities by rules *)

Definition activityMarkers : list str :=
  [js "去"; js "做"; js "完成"; js "参加"; js "开始"; js "结束"].

(** [[。！？]] *)
Definition isSentenceEnd (c : N) : bool :=
  N.eqb c 12290 || N.eqb c 65281 || N.eqb c 65311.

(** [[^，。！？]] *)
Definition isPhraseChar (c : N) : bool :=
  negb (N.eqb c 65292 || isSentenceEnd c).

(** [new RegExp(`${marker}([^，。！？]+)`)] tried at the start of [s]; the
    result is the captured group. *)
Definition markerRegex_at (marker s : str) : option str :=
  if startsWith s marker then
    match takeWhile isPhraseChar (skipn (List.length marker) s) with
    | [] => None
    | cap => Some cap
    end
  else None.

Definition activitiesOfSentence (sentence : str) : list str :=
  flat_map
    (fun marker =>
       if includes sentence marker then
         match search (markerRegex_at marker) sentence with
         | Some cap => [trim cap]
         | None => []
         end
       else [])
    activityMarkers.

Definition extractedPhrases (text : str) : list str :=
  let sentences := split_class text isSentenceEnd in
  flat_map activitiesOfSentence sentences.

Definition extractActivitiesWithRules (text : str) : list str :=
  let activities := extractedPhrases text in
  set_of_array activities.

(** ** Summary *)

Definition generateSimpleSummary (text : str) : str :=
  let firstParagraph := nth 0 (split text [10%N; 10%N]) [] in
  if Js.length firstParagraph <=? 100 then firstParagraph
  else substring0 firstParagraph 100 ++ js "...".

(** ** The service-backed variants and the dispatchers *)

Inductive ServiceName : Type := ServiceOpenAI | ServiceOllama.

Definition noService : exn := Error (js "No AI service available").

Definition keywordsPrompt (self : t) (text : str) : str :=
  js "请从以下文本中提取" ++ numberToString (maxKeywords self)
  ++ js "个最重要的关键词，以逗号分隔：" ++ [10%N; 10%N] ++ text.

Definition extractKeywordsWithAI (self : t) (text : str) (service : ServiceName)
  : result (list str) :=
  let prompt := keywordsPrompt self text in
  let response :=
    match service, openAI self with
    | ServiceOpenAI, Some s => complete s prompt
    | _, _ =>
      match service, ollama self with
      | ServiceOllama, Some s => complete s prompt
      | _, _ => Throw noService
      end
    end in
  bind response (fun response =>
    Ok (slice0 (map trim (split response (js ","))) (maxKeywords self))).

Definition extractKeywords (self : t) (text : str) : result (list str) :=
  match openAI self with
  | Some _ => extractKeywordsWithAI self text ServiceOpenAI
  | None =>
    match ollama self with
    | Some _ => extractKeywordsWithAI self text ServiceOllama
    | None => Ok (extractKeywordsWithFrequency self text)
    end
  end.

(** [if (this.openAI) ... else if (this.ollama) ... else throw]. *)
Definition askService (self : t) (prompt : str) : result str :=
  match openAI self with
  | Some s => complete s prompt
  | None =>
    match ollama self with
    | Some s => complete s prompt
    | None => Throw noService
    end
  end.

Definition activitiesPrompt (text : str) : str :=
  js "请从以下日记文本中提取主要活动，以逗号分隔：" ++ [10%N; 10%N] ++ text.

Definition extractActivitiesWithAI (self : t) (text : str) : result (list str) :=
  bind (askService self (activitiesPrompt text)) (fun response =>
    Ok (map trim (split response (js ",")))).

Definition extractActivities (self : t) (text : str) : result (list str) :=
  if hasService self then extractActivitiesWithAI self text
  else Ok (extractActivitiesWithRules text).

Definition summaryPrompt (text : str) : str :=
  js "请用一到两句话总结以下日记内容：" ++ [10%N; 10%N] ++ text.

Definition generateSummaryWithAI (self : t) (text : str) : result str :=
  askService self (summaryPrompt text).

Definition generateSummary (self : t) (text : str) : result str :=
  if hasService self then generateSummaryWithAI self text
  else Ok (generateSimpleSummary text).

(** [analyze]: keywords, mood and activities are awaited together, then
    the summary.  The call fulfils exactly when all four do.  (When several
    of the first three reject, JavaScript reports the one that rejects first
    in time; here it is the first in the order of the array, and no
    statement depends on which.) *)
Definition analyze (self : t) (diary : DiaryContent) : result AnalysisResult :=
  bind (extractKeywords self (content diary)) (fun keywords =>
  bind (analyzeMoodScore self (content diary)) (fun moodScore =>
  bind (extractActivities self (content diary)) (fun activities =>
  bind (generateSummary self (content diary)) (fun summary =>
    Ok (mkAnalysisResult keywords moodScore summary activities))))).

End ContentAnalyzer.

(* ================================================================== *)
(** * core/timeline.ts *)
(* ================================================================== *)

Module TimelineGenerator.

Definition lengthMismatch : exn :=
  Error (js "Diaries and analyses arrays must have the same length").

Section Generate.

(** The state of the random source behind [uuidv4()]. *)
Variable Rng : Type.
Variable uuidv4 : Rng -> str * Rng.

(** [date.toLocaleDateString('zh-CN', {year: 'numeric', month: 'long',
    day: 'numeric'})], which the host's locale data decides. *)
Variable toLocaleDateString : Date -> str.

(** Computations that draw identifiers and may throw. *)
Definition M (A : Type) : Type := Rng -> result (A * Rng).

Definition ret {A} (a : A) : M A := fun g => Ok (a, g).

Definition mbind {A B} (m : M A) (k : A -> M B) : M B :=
  fun g =>
    match m g with
    | Ok (a, g') => k a g'
    | Throw e => Throw e
    end.

Definition throw {A} (e : exn) : M A := fun _ => Throw e.

Definition fresh : M str := fun g => Ok (uuidv4 g).

Notation "x <- m ;; k" := (mbind m (fun x => k))
  (at level 61, m at next level, right associativity).

(** [a[index].field]: reading a property of [undefined] throws. *)
Definition at_index {A} (a : list A) (index : nat) : M A :=
  match nth_error a index with
  | Some x => ret x
  | None => throw (TypeError (js "Cannot read properties of undefined"))
  end.

(** [a.map((x, index) => f(x, index))] for a callback that runs in [M]. *)
Fixpoint mapi {A B} (f : A -> nat -> M B) (a : list A) (index : nat)
  : M (list B) :=
  match a with
  | [] => ret []
  | x :: a' =>
    y <- f x index ;;
    ys <- mapi f a' (S index) ;;
    ret (y :: ys)
  end.

Definition generateTitle (date : Date) : str :=
  toLocaleDateString date ++ js " 的日记".

(** [diary.metadata.title || this.generateTitle(diary.date)] *)
Definition titleOf (diary : DiaryContent) : str :=
  match title (metadata diary) with
  | Some t => if truthy t then t else generateTitle (dc_date diary)
  | None => generateTitle (dc_date diary)
  end.

(** The callback of [diaries.map] in [generateTimelineData]. *)
Definition entryAt (analyses : list AnalysisResult)
           (diary : DiaryContent) (index : nat) : M TimelineEntry :=
  id <- fresh ;;
  let date := dc_date diary in
  let title := titleOf diary in
  analysis <- at_index analyses index ;;
  ret (mkTimelineEntry id date title (ar_summary analysis)
         (ar_keywords analysis) (ar_moodScore analysis)
         (ar_activities analysis)).

Definition generateTimelineData
           (diaries : list DiaryContent) (analyses : list AnalysisResult)
  : M (list TimelineEntry) :=
  if negb (Nat.eqb (List.length diaries) (List.length analyses)) then
    throw lengthMismatch
  else
    mapi (entryAt analyses) diaries 0%nat.

End Generate.

Definition filterEntriesByDateRange
           (entries : list TimelineEntry) (startDate endDate : option Date)
  : list TimelineEntry :=
  filter
    (fun entry =>
       if match startDate with
          | Some s => getTime (date entry) <? getTime s
          | None => false
          end
       then false
       else if match endDate with
               | Some e => getTime (date entry) >? getTime e
               | None => false
               end
            then false
            else true)
    entries.

Definition countKeyword (keywordCount : map_t) (keyword : str) : map_t :=
  map_set keywordCount keyword (or_zero (map_get keywordCount keyword) + 1).

Definition byCountDesc (a b : str * Z) : Z := snd b - snd a.

(** [limit] is [None] when the argument is left out; its default is 10. *)
Definition findTopKeywords (entries : list TimelineEntry) (limit : option Z)
  : list (str * Z) :=
  let limit := match limit with Some n => n | None => 10 end in
  let keywordCount :=
    fold_left
      (fun keywordCount entry =>
         fold_left countKeyword (keywords entry) keywordCount)
      entries [] in
  slice0 (sort byCountDesc keywordCount) limit.

(** ** Export, search, mood filter and statistics *)

Definition emojis : list str :=
  [js "😢"; js "😔"; js "😐"; js "😊"; js "😄"].

(** Scores are integers, which [Math.floor] leaves as they are. *)
Definition getMoodEmoji (score : Z) : str :=
  nth (Z.to_nat (Z.min (Z.max (score - 1) 0) 4)) emojis [].

Section MarkdownExport.

(** [date.toLocaleDateString('zh-CN')], which the host's locale data
    decides. *)
Variable toLocaleDateString : Date -> str.

Definition entryMarkdown (entry : TimelineEntry) : str :=
  let date := toLocaleDateString (date entry) in
  let moodEmoji := getMoodEmoji (moodScore entry) in
  js "## " ++ date ++ js " " ++ te_title entry ++ js " " ++ moodEmoji
  ++ [10%N; 10%N]
  ++ summary entry ++ [10%N; 10%N]
  ++ js "**关键词**：" ++ join (js "、") (keywords entry) ++ [10%N; 10%N]
  ++ js "**活动**：" ++ join (js "、") (activities entry) ++ [10%N; 10%N]
  ++ js "---" ++ [10%N].

Definition exportTimelineMarkdown (entries : list TimelineEntry) : str :=
  join [10%N] (map entryMarkdown entries).

End MarkdownExport.

Section KeywordSearch.

(** [s.toLowerCase()], which the Unicode case tables decide. *)
Variable toLowerCase : str -> str.

Definition searchEntriesByKeyword (entries : list TimelineEntry) (keyword : str)
  : list TimelineEntry :=
  let lowercaseKeyword := toLowerCase keyword in
  filter
    (fun entry =>
       existsb (fun k => includes (toLowerCase k) lowercaseKeyword)
               (keywords entry)
       || includes (toLowerCase (summary entry)) lowercaseKeyword
       || existsb (fun a => includes (toLowerCase a) lowercaseKeyword)
                  (activities entry))
    entries.

End KeywordSearch.

Definition filterEntriesByMoodRange
           (entries : list TimelineEntry) (minScore maxScore : Z)
  : list TimelineEntry :=
  filter
    (fun entry => (moodScore entry >=? minScore) && (moodScore entry <=? maxScore))
    entries.

(** A [Record<number, number>], by what reading a key gives ([None] for a
    key that is not there); the order of its keys is not modelled. *)
Definition record_t : Type := Z -> option Z.

Definition initialDistribution : record_t :=
  fun k => if (1 <=? k) && (k <=? 5) then Some 0 else None.

(** Scores are integers, which [Math.round] leaves as they are. *)
Definition countScore (distribution : record_t) (entry : TimelineEntry)
  : record_t :=
  let score := moodScore entry in
  let count := or_zero (distribution score) + 1 in
  fun k => if k =? score then Some count else distribution k.

Definition calculateMoodDistribution (entries : list TimelineEntry) : record_t :=
  fold_left countScore entries initialDistribution.

Definition countActivity (activityCount : map_t) (activity : str) : map_t :=
  map_set activityCount activity (or_zero (map_get activityCount activity) + 1).

Definition findTopActivities (entries : list TimelineEntry) (limit : option Z)
  : list (str * Z) :=
  let limit := match limit with Some n => n | None => 10 end in
  let activityCount :=
    fold_left
      (fun activityCount entry =>
         fold_left countActivity (activities entry) activityCount)
      entries [] in
  slice0 (sort byCountDesc activityCount) limit.

Section Months.

(** [date.toISOString()]. *)
Variable toISOString : Date -> str.

Definition monthKeyOf (entry : TimelineEntry) : str :=
  substring0 (toISOString (date entry)) 7.

(** The month keys are not array indices, so the record keeps them in
    insertion order, like a [Map]. *)
Definition calculateEntriesPerMonth (entries : list TimelineEntry) : map_t :=
  fold_left
    (fun monthlyCount entry =>
       let monthKey := monthKeyOf entry in
       map_set monthlyCount monthKey
               (or_zero (map_get monthlyCount monthKey) + 1))
    entries [].

End Months.

End TimelineGenerator.

(* ================================================================== *)
(** * main.ts *)
(* ================================================================== *)

Module Plugin.

(** [Promise.all(ps)]: it fulfils, with all the values in order, exactly
    when every promise fulfils.  (When several reject, JavaScript reports
    the one that rejects first in time; here it is the first in the order
    of the array, and no statement depends on which.) *)
Fixpoint all {A} (ps : list (result A)) : result (list A) :=
  match ps with
  | [] => Ok []
  | p :: rest =>
    bind p (fun a => bind (all rest) (fun values => Ok (a :: values)))
  end.

Section Pipeline.

Variable Rng : Type.
Variable uuidv4 : Rng -> str * Rng.
Variable toLocaleDateString : Date -> str.

(** What [generateTimeline], [exportAnalysisReport] and [analyzeDiaries]
    do with the parsed diaries: analyse each, then build the timeline. *)
Definition timelineEntries
           (analyzer : ContentAnalyzer.t) (diaryContents : list DiaryContent)
  : TimelineGenerator.M Rng (list TimelineEntry) :=
  fun g =>
    bind (all (map (fun diary => ContentAnalyzer.analyze analyzer diary)
                   diaryContents))
         (fun analyses =>
            TimelineGenerator.generateTimelineData
              Rng uuidv4 toLocaleDateString diaryContents analyses g).

End Pipeline.

End Plugin.

(* ================================================================== *)
(** * Vocabulary of the statements *)
(* ================================================================== *)

Module Spec.

(** How often [k] occurs in [ks], and where it occurs first. *)
Fixpoint occurrences (k : str) (ks : list str) : Z :=
  match ks with
  | [] => 0
  | x :: r => (if eqb x k then 1 else 0) + occurrences k r
  end.

Fixpoint first_index (k : str) (ks : list str) : nat :=
  match ks with
  | [] => 0
  | x :: r => if eqb x k then 0 else S (first_index k r)
  end.

(** The ranking order over the keys [ks]: more frequent first, and among
    equally frequent keys the one seen first. *)
Definition ranks_before (ks : list str) (a b : str) : Prop :=
  occurrences b ks < occurrences a ks
  \/ (occurrences a ks = occurrences b ks
      /\ (first_index a ks < first_index b ks)%nat).

(** The tokens of a text: the pieces between white space of the cleaned
    text that are longer than one code unit. *)
Definition tokens (text : str) : list str :=
  filter (fun w => 1 <? Js.length w)
         (split_ws (ContentAnalyzer.cleanText text)).

(** The maximal runs of code units of a class in a text, in order; [cur]
    is the run being read (reversed). *)
Fixpoint runs_go (p : N -> bool) (s cur : str) : list str :=
  match s with
  | [] => match cur with [] => [] | _ :: _ => [rev cur] end
  | c :: s' =>
    if p c then runs_go p s' (c :: cur)
    else match cur with
         | [] => runs_go p s' []
         | _ :: _ => rev cur :: runs_go p s' []
         end
  end.

Definition runs (p : N -> bool) (s : str) : list str := runs_go p s [].

(** All keywords of a timeline, entry after entry. *)
Definition allKeywords (entries : list TimelineEntry) : list str :=
  flat_map keywords entries.

(** [sep] occurs in [s] at offset [i]. *)
Definition occurs_at (sep s : str) (i : nat) : Prop :=
  startsWith (skipn i s) sep = true.

(** An identifier with its trailing extension removed: what precedes the
    last dot, or all of it when it has no dot. *)
Fixpoint stripExtension (s : str) : str :=
  match s with
  | [] => []
  | c :: s' =>
    if existsb (N.eqb 46) s' then c :: stripExtension s'
    else if N.eqb c 46 then [] else s
  end.

(** The AI service the analyzer turns to: OpenAI when configured, else
    Ollama. *)
Definition backend (self : ContentAnalyzer.t) : option ContentAnalyzer.AIService :=
  match ContentAnalyzer.openAI self with
  | Some service => Some service
  | None => ContentAnalyzer.ollama self
  end.

(** A diary as the parser produces it: its metadata are those extracted
    from its content. *)
Definition parsed (record : DiaryContent) : Prop :=
  metadata record = DiaryParser.extractMetadata (content record).


(** The number of dots in an identifier. *)
Definition dots (s : str) : nat := List.length (filter (N.eqb 46) s).

(** Midnight UTC of a calendar day, as a [Date]. *)
Definition daysFromCivil (y m d : Z) : Z :=
  let y' := if m <=? 2 then y - 1 else y in
  let era := y' / 400 in
  let yoe := y' - era * 400 in
  let doy := (153 * (m + (if 2 <? m then -3 else 9)) + 2) / 5 + d - 1 in
  let doe := yoe * 365 + yoe / 4 - yoe / 100 + doy in
  era * 146097 + doe - 719468.

Definition utcDay (y m d : Z) : Date :=
  mkDate (daysFromCivil y m d * 86400000).

(** [e] lies within the bounds that are given, both ends included. *)
Definition within (startDate endDate : option Date) (e : TimelineEntry) : Prop :=
  (forall s, startDate = Some s -> getTime s <= getTime (date e))
  /\ (forall t, endDate = Some t -> getTime (date e) <= getTime t).

(** The order a stable descending sort by count leaves between two
    entries of a counting map, [pos] being their places before the sort. *)
Definition sorted_rel (pos : str * Z -> nat) (x y : str * Z) : Prop :=
  snd y < snd x \/ (snd x = snd y /\ (pos x < pos y)%nat).

(** A timeline entry of a given date, and one of given keywords. *)
Definition entryOn (d : Date) : TimelineEntry :=
  mkTimelineEntry [] d [] [] [] 3 [].

Definition entryWith (ks : list str) : TimelineEntry :=
  mkTimelineEntry [] (mkDate 0) [] [] ks 3 [].

(** What a timeline entry takes from its diary and from its analysis. *)
Definition pairs_with (toLocaleDateString : Date -> str)
           (d : DiaryContent) (a : AnalysisResult) (e : TimelineEntry) : Prop :=
  date e = dc_date d
  /\ te_title e = TimelineGenerator.titleOf toLocaleDateString d
  /\ summary e = ar_summary a
  /\ keywords e = ar_keywords a
  /\ moodScore e = ar_moodScore a
  /\ activities e = ar_activities a.

(** A diary whose only line is a heading mark followed by blanks, and an
    analysis to go with it. *)
Definition blankHeading : DiaryContent :=
  mkDiaryContent (utcDay 2024 1 15) (js "#  ")
                 (DiaryParser.extractMetadata (js "#  ")).

Definition someAnalysis : AnalysisResult :=
  mkAnalysisResult [js "工作"] 4 (js "summary") [js "公园"].

(** ** Vocabulary of the further properties *)

(** A string that neither starts nor ends with white space. *)
Definition trimmed (s : str) : Prop :=
  match s with [] => True | c :: _ => isWhiteSpace c = false end
  /\ match rev s with [] => True | c :: _ => isWhiteSpace c = false end.

(** [p] is a contiguous part of [s]. *)
Definition substring_of (p s : str) : Prop :=
  exists pre suf, s = pre ++ p ++ suf.

(** The identifiers that [n] successive calls of [uuidv4] give. *)
Fixpoint draws {Rng : Type} (uuidv4 : Rng -> str * Rng) (g : Rng) (n : nat)
  : list str :=
  match n with
  | O => []
  | S n' => fst (uuidv4 g) :: draws uuidv4 (snd (uuidv4 g)) n'
  end.

(** The number of entries of a timeline that satisfy a test. *)
Definition count_where (p : TimelineEntry -> bool) (entries : list TimelineEntry)
  : Z :=
  Z.of_nat (List.length (filter p entries)).

(** The sum of the counts of a counting map. *)
Definition total (m : map_t) : Z := fold_right (fun kv acc => snd kv + acc) 0 m.

(** All activities of a timeline, entry after entry. *)
Definition allActivities (entries : list TimelineEntry) : list str :=
  flat_map activities entries.

(** A value of an analysis that the heuristics can produce. *)
Definition wellFormed (maxKeywords : Z) (a : AnalysisResult) : Prop :=
  1 <= ar_moodScore a <= 5
  /\ Z.of_nat (List.length (ar_keywords a)) <= maxKeywords
  /\ NoDup (ar_keywords a)
  /\ Js.length (ar_summary a) <= 103
  /\ NoDup (ar_activities a).

(** The shape of one match of the tag expression: an optional white-space
    character, the hash, and a non-empty word [w] free of white space and
    hashes. *)
Definition tag_match (m w : str) : Prop :=
  w <> [] /\ Forall (fun c => DiaryParser.isTagChar c = true) w
  /\ (m = 35%N :: w \/ exists c, isWhiteSpace c = true /\ m = c :: 35%N :: w).

(** The entries of mood score [k]. *)
Definition scoreIs (k : Z) (e : TimelineEntry) : bool := moodScore e =? k.

End Spec.

Import Spec.

(* ================================================================== *)
(** * Facts about the primitives *)
(* ================================================================== *)

Section StringFacts.

Lemma eqb_eq (a b : str) : eqb a b = true <-> a = b.
Proof.
  revert b; induction a as [|x a IH]; intros [|y b]; simpl;
    try (split; [discriminate | discriminate]); try tauto.
  rewrite andb_true_iff, N.eqb_eq, IH.
  split; [intros [-> ->]; reflexivity | intros H; inversion H; auto].
Qed.

Lemma eqb_refl (a : str) : eqb a a = true.
Proof. apply eqb_eq; reflexivity. Qed.

Lemma eqb_neq (a b : str) : eqb a b = false <-> a <> b.
Proof.
  rewrite <- eqb_eq. destruct (eqb a b); split; congruence.
Qed.

Lemma eqb_sym (a b : str) : eqb a b = eqb b a.
Proof.
  destruct (eqb a b) eqn:E.
  - apply eqb_eq in E; subst; symmetry; apply eqb_refl.
  - destruct (eqb b a) eqn:E'; auto.
    apply eqb_eq in E'; subst. rewrite eqb_refl in E; discriminate.
Qed.

Lemma startsWith_app (p r : str) : startsWith (p ++ r) p = true.
Proof.
  induction p as [|x p IH]; cbn [startsWith app].
  - destruct r; reflexivity.
  - rewrite N.eqb_refl; exact IH.
Qed.

Lemma startsWith_split (s p : str) :
  startsWith s p = true -> exists r, s = p ++ r.
Proof.
  revert s; induction p as [|x p IH]; intros s H.
  - exists s; reflexivity.
  - destruct s as [|y s]; cbn [startsWith] in H; try discriminate.
    apply andb_true_iff in H as [Hx Hp]. apply N.eqb_eq in Hx; subst.
    destruct (IH _ Hp) as [r ->]. exists r; reflexivity.
Qed.




End StringFacts.

(* ================================================================== *)
(** * The heuristic mood scorer *)
(* ================================================================== *)

Section MoodDictionary.

Import ContentAnalyzer.

Example mood_two_positive :
  analyzeMoodWithDictionary (js "今天很开心，也很开心") = 5.
Proof. reflexivity. Qed.

Example mood_three_negative :
  analyzeMoodWithDictionary (js "难过，伤心，失望") = 1.
Proof. reflexivity. Qed.

Example mood_balanced :
  analyzeMoodWithDictionary (js "开心但是失望") = 3.
Proof. reflexivity. Qed.


End MoodDictionary.

(* ================================================================== *)
(** * The heuristic summary *)
(* ================================================================== *)

Section Summary.

Import ContentAnalyzer.

(** The first piece of [split] is what precedes the first occurrence of
    the separator. *)
Lemma split_go_first (sep s cur : str) :
  exists first rest,
    s = first ++ rest
    /\ nth 0 (split_go sep s cur 0) [] = rev cur ++ first
    /\ (rest = [] \/ startsWith rest sep = true)
    /\ (forall i, (i < List.length first)%nat -> ~ occurs_at sep s i).
Proof.
  revert cur; induction s as [|c s IH]; intros cur.
  - exists [], []. cbn. rewrite app_nil_r.
    repeat split; auto. intros i Hi; inversion Hi.
  - cbn [split_go].
    destruct (startsWith (c :: s) sep) eqn:Hs.
    + exists [], (c :: s). cbn [nth app List.length]. rewrite app_nil_r.
      repeat split; auto. intros i Hi; inversion Hi.
    + destruct (IH (c :: cur)) as (first & rest & -> & Hn & Hr & Hno).
      exists (c :: first), rest. repeat split; auto.
      * rewrite Hn. cbn [rev]. rewrite <- app_assoc. reflexivity.
      * intros [|i] Hi; unfold occurs_at.
        -- cbn [skipn]. cbn [app] in Hs. congruence.
        -- cbn [skipn app]. apply Hno. cbn [List.length] in Hi. lia.
Qed.

Example summary_short :
  generateSimpleSummary (js "first" ++ [10; 10]%N ++ js "second") = js "first".
Proof. reflexivity. Qed.

(** C8.  The heuristic summary is built from the text up to the first
    paragraph break (two line feeds in a row): that prefix itself when it
    has at most 100 code units, and otherwise its first 100 code units
    followed by three dots; it never has more than 103 code units. *)
Theorem generateSimpleSummary_spec (text : str) :
  exists firstParagraph rest,
    text = firstParagraph ++ rest
    /\ (rest = [] \/ startsWith rest [10; 10]%N = true)
    /\ (forall i, (i < List.length firstParagraph)%nat ->
                  ~ occurs_at [10; 10]%N text i)
    /\ (Js.length firstParagraph <= 100 ->
        generateSimpleSummary text = firstParagraph)
    /\ (100 < Js.length firstParagraph ->
        generateSimpleSummary text = firstn 100 firstParagraph ++ js "...")
    /\ Js.length (generateSimpleSummary text) <= 103.
Proof.
  destruct (split_go_first [10; 10]%N text []) as (fp & rest & Ht & Hn & Hr & Hno).
  cbn [rev app] in Hn.
  exists fp, rest. unfold generateSimpleSummary, split. rewrite Hn.
  repeat split; auto.
  - intros H. apply Z.leb_le in H. rewrite H. reflexivity.
  - intros H. apply Z.leb_gt in H. rewrite H. reflexivity.
  - destruct (Js.length fp <=? 100) eqn:E.
    + apply Z.leb_le in E. lia.
    + unfold Js.length, substring0. rewrite length_app, length_firstn.
      change (List.length (js "...")) with 3%nat. lia.
Qed.

End Summary.

(* ================================================================== *)
(** * Filtering a timeline by date *)
(* ================================================================== *)

Section DateRange.

Import TimelineGenerator.

Example january_bounds :
  filterEntriesByDateRange
    [entryOn (utcDay 2024 1 1); entryOn (utcDay 2024 2 1);
     entryOn (utcDay 2024 1 31); entryOn (utcDay 2023 12 31)]
    (Some (utcDay 2024 1 1)) (Some (utcDay 2024 1 31))
  = [entryOn (utcDay 2024 1 1); entryOn (utcDay 2024 1 31)].
Proof. reflexivity. Qed.

(** C7.  [filterEntriesByDateRange] keeps, in their order, exactly the
    entries whose date is not before the start bound and not after the end
    bound, when these are given; a bound left out excludes nothing.  With
    the bounds 2024-01-01 and 2024-01-31 an entry dated 2024-01-01 is kept
    and one dated 2024-02-01 is dropped. *)
Theorem filterEntriesByDateRange_spec
        (entries : list TimelineEntry) (startDate endDate : option Date) :
  (forall e, In e (filterEntriesByDateRange entries startDate endDate)
             <-> In e entries /\ within startDate endDate e)
  /\ (exists keep, filterEntriesByDateRange entries startDate endDate
                   = filter keep entries
                   /\ forall e, keep e = true <-> within startDate endDate e)
  /\ filterEntriesByDateRange entries None None = entries
  /\ (forall e, In e entries ->
        In e (filterEntriesByDateRange entries startDate None)
        <-> (forall s, startDate = Some s -> getTime s <= getTime (date e)))
  /\ (forall e, In e entries ->
        In e (filterEntriesByDateRange entries None endDate)
        <-> (forall t, endDate = Some t -> getTime (date e) <= getTime t))
  /\ (forall e, In e entries -> date e = utcDay 2024 1 1 ->
        In e (filterEntriesByDateRange entries (Some (utcDay 2024 1 1))
                                       (Some (utcDay 2024 1 31))))
  /\ (forall e, date e = utcDay 2024 2 1 ->
        ~ In e (filterEntriesByDateRange entries (Some (utcDay 2024 1 1))
                                         (Some (utcDay 2024 1 31)))).
Proof.
  assert (K : forall s t e,
             (if match s with
                 | Some s => getTime (date e) <? getTime s
                 | None => false
                 end
              then false
              else if match t with
                      | Some t => getTime (date e) >? getTime t
                      | None => false
                      end
                   then false else true) = true <-> within s t e).
  { intros s t e. unfold within.
    destruct s as [s|], t as [t|];
      repeat match goal with
             | |- context [?a <? ?b] => destruct (Z.ltb_spec a b)
             | |- context [?a >? ?b] =>
               rewrite (Z.gtb_ltb a b); destruct (Z.ltb_spec b a)
             end;
      split; try discriminate; try reflexivity;
        try (intros [A B]; try specialize (A _ eq_refl);
             try specialize (B _ eq_refl); lia);
        try (intros _; split; intros ? E; inversion E; subst; lia). }
  assert (M : forall s t e,
             In e (filterEntriesByDateRange entries s t)
             <-> In e entries /\ within s t e).
  { intros s t e. unfold filterEntriesByDateRange.
    rewrite filter_In, K. reflexivity. }
  split; [apply M|].
  split; [eexists; split; [reflexivity | intros e; apply K]|].
  split.
  { unfold filterEntriesByDateRange. clear M.
    induction entries as [|e l IH]; [reflexivity|].
    cbn [filter]. f_equal. exact IH. }
  split.
  { intros e He. rewrite M. unfold within. split.
    - tauto.
    - intros H; repeat split; auto; discriminate. }
  split.
  { intros e He. rewrite M. unfold within. split.
    - tauto.
    - intros H; repeat split; auto; discriminate. }
  split.
  { intros e He Hd. rewrite M. split; auto. unfold within.
    split; intros x E; inversion E; subst; rewrite Hd; cbn; lia. }
  { intros e Hd. rewrite M. unfold within. intros [_ [_ B]].
    specialize (B _ eq_refl). rewrite Hd in B. cbn in B. lia. }
Qed.

End DateRange.

(* ================================================================== *)
(** * Building the timeline *)
(* ================================================================== *)

Section Timeline.

Import TimelineGenerator.

Variable Rng : Type.
Variable uuidv4 : Rng -> str * Rng.
Variable toLocaleDateString : Date -> str.

Local Abbreviation generate :=
  (generateTimelineData Rng uuidv4 toLocaleDateString).
Local Abbreviation titleFor := (titleOf toLocaleDateString).
Local Abbreviation pairs_with := (Spec.pairs_with toLocaleDateString).

Lemma mbind_ok {A B} (m : M Rng A) (k : A -> M Rng B) (g g1 : Rng) (a : A) :
  m g = Ok (a, g1) -> mbind Rng m k g = k a g1.
Proof. intros H. unfold mbind. rewrite H. reflexivity. Qed.

Lemma entryAt_ok (analyses : list AnalysisResult) (d : DiaryContent)
      (index : nat) (g : Rng) (a : AnalysisResult) :
  nth_error analyses index = Some a ->
  exists e,
    entryAt Rng uuidv4 toLocaleDateString analyses d index g
    = Ok (e, snd (uuidv4 g))
    /\ pairs_with d a e.
Proof.
  intros Ha. unfold entryAt, mbind, fresh, at_index, ret.
  destruct (uuidv4 g) as [i0 g0]. rewrite Ha. cbn [snd].
  eexists; split; [reflexivity|]. repeat split.
Qed.

Lemma mapi_entries (analyses : list AnalysisResult) :
  forall (diaries : list DiaryContent) (index : nat) (g : Rng),
    (index + List.length diaries <= List.length analyses)%nat ->
    exists entries g',
      mapi Rng (entryAt Rng uuidv4 toLocaleDateString analyses) diaries index g
      = Ok (entries, g')
      /\ List.length entries = List.length diaries
      /\ forall i d a,
          nth_error diaries i = Some d ->
          nth_error analyses (index + i) = Some a ->
          exists e, nth_error entries i = Some e /\ pairs_with d a e.
Proof.
  induction diaries as [|d ds IH]; intros index g Hlen.
  - exists [], g. cbn. repeat split; auto.
    intros [|i] ? ? H; discriminate.
  - cbn [List.length] in Hlen.
    destruct (nth_error analyses index) as [a0|] eqn:Ha.
    2:{ apply nth_error_None in Ha. lia. }
    destruct (entryAt_ok analyses d index g a0 Ha) as (e0 & He0 & Hp0).
    destruct (IH (S index) (snd (uuidv4 g))) as (es & g' & Hm & Hl & Hi);
      [lia|].
    exists (e0 :: es), g'. split; [|split].
    + cbn [mapi]. rewrite (mbind_ok _ _ _ _ _ He0).
      rewrite (mbind_ok _ _ _ _ _ Hm). reflexivity.
    + cbn [List.length]. congruence.
    + intros [|i] d' a' Hd Ha'.
      * cbn in Hd. inversion Hd; subst d'.
        rewrite Nat.add_0_r in Ha'. rewrite Ha in Ha'. inversion Ha'; subst a'.
        exists e0; split; [reflexivity | exact Hp0].
      * cbn in Hd. rewrite Nat.add_succ_r in Ha'.
        destruct (Hi i d' a' Hd Ha') as (e & He & Hp).
        exists e; split; auto.
Qed.

Lemma generate_ok (diaries : list DiaryContent) (analyses : list AnalysisResult)
      (g : Rng) :
  List.length diaries = List.length analyses ->
  exists entries g',
    generate diaries analyses g = Ok (entries, g')
    /\ List.length entries = List.length diaries
    /\ forall i d a,
        nth_error diaries i = Some d ->
        nth_error analyses i = Some a ->
        exists e, nth_error entries i = Some e /\ pairs_with d a e.
Proof.
  intros Hlen. unfold generateTimelineData.
  assert (E : Nat.eqb (List.length diaries) (List.length analyses) = true)
    by (apply Nat.eqb_eq; exact Hlen).
  rewrite E. cbn [negb].
  destruct (mapi_entries analyses diaries 0 g) as (es & g' & Hm & Hl & Hi);
    [lia|].
  exists es, g'. repeat split; auto.
Qed.

(** C1.  [generateTimelineData] throws the length-mismatch error exactly
    when the two arrays differ in length; when they have the same length
    it returns as many entries, the entry at each index carrying the date
    of the diary at that index and the summary, keywords, mood score and
    activities of the analysis at that index. *)
Theorem generateTimelineData_spec
        (diaries : list DiaryContent) (analyses : list AnalysisResult) (g : Rng) :
  (generate diaries analyses g = Throw lengthMismatch
   <-> List.length diaries <> List.length analyses)
  /\ ((exists e, generate diaries analyses g = Throw e)
      <-> List.length diaries <> List.length analyses)
  /\ (List.length diaries = List.length analyses ->
      exists entries g',
        generate diaries analyses g = Ok (entries, g')
        /\ List.length entries = List.length diaries
        /\ forall i d a,
            nth_error diaries i = Some d ->
            nth_error analyses i = Some a ->
            exists e,
              nth_error entries i = Some e
              /\ date e = dc_date d
              /\ summary e = ar_summary a
              /\ keywords e = ar_keywords a
              /\ moodScore e = ar_moodScore a
              /\ activities e = ar_activities a).
Proof.
  assert (T : List.length diaries <> List.length analyses ->
              generate diaries analyses g = Throw lengthMismatch).
  { intros H. unfold generateTimelineData.
    apply Nat.eqb_neq in H. rewrite H. reflexivity. }
  assert (O : List.length diaries = List.length analyses ->
              forall e, generate diaries analyses g <> Throw e).
  { intros H e. destruct (generate_ok diaries analyses g H) as (es & g' & E & _).
    rewrite E. discriminate. }
  split; [|split].
  - split; auto. intros E H. exact (O H _ E).
  - split.
    + intros [e E] H. exact (O H _ E).
    + intros H. eexists; apply T; exact H.
  - intros H. destruct (generate_ok diaries analyses g H) as (es & g' & E & L & I).
    exists es, g'. repeat split; auto.
    intros i d a Hd Ha. destruct (I i d a Hd Ha) as (e & He & P).
    exists e. unfold pairs_with in P. tauto.
Qed.

(** C9, as the code has it.  The title of the entry at an index is the
    metadata title of the diary at that index when that title is present
    and not the empty string; when it is absent or empty, the title is the
    locale-formatted date followed by the fixed suffix. *)
Theorem generateTimelineData_title
        (diaries : list DiaryContent) (analyses : list AnalysisResult) (g g' : Rng)
        (entries : list TimelineEntry) (i : nat) (d : DiaryContent)
        (e : TimelineEntry) :
  generate diaries analyses g = Ok (entries, g') ->
  nth_error diaries i = Some d ->
  nth_error entries i = Some e ->
  (forall t, title (metadata d) = Some t -> t <> [] -> te_title e = t)
  /\ (title (metadata d) = None \/ title (metadata d) = Some [] ->
      te_title e = toLocaleDateString (dc_date d) ++ js " 的日记").
Proof.
  intros E Hd He.
  destruct (Nat.eq_dec (List.length diaries) (List.length analyses)) as [L|L].
  2:{ unfold generateTimelineData in E. apply Nat.eqb_neq in L.
      rewrite L in E. discriminate. }
  destruct (generate_ok diaries analyses g L) as (es & g0 & E' & _ & I).
  rewrite E in E'. inversion E'; subst es g0.
  destruct (nth_error analyses i) as [a|] eqn:Ha.
  2:{ apply nth_error_None in Ha.
      assert (i < List.length diaries)%nat
        by (apply nth_error_Some; congruence). lia. }
  destruct (I i d a Hd Ha) as (e' & He' & _ & Ht & _).
  rewrite He in He'. inversion He'; subst e'.
  rewrite Ht. unfold titleOf, generateTitle. split.
  - intros t -> Hne. destruct t; [congruence | reflexivity].
  - intros [-> | ->]; reflexivity.
Qed.

End Timeline.

Section TimelineExamples.

Import TimelineGenerator.

Example blankHeading_title : title (metadata blankHeading) = Some [].
Proof. reflexivity. Qed.

(** C9, as the claim words it, fails: a heading line made of [#] and
    blanks gives a metadata title that is present and empty, and the entry
    then takes the generated label, not that title. *)
Lemma title_present_counterexample :
  ~ (forall (Rng : Type) (uuidv4 : Rng -> str * Rng)
            (toLocaleDateString : Date -> str)
            (d : DiaryContent) (a : AnalysisResult) (g g' : Rng)
            (e : TimelineEntry),
        generateTimelineData Rng uuidv4 toLocaleDateString [d] [a] g
        = Ok ([e], g') ->
        te_title e = match title (metadata d) with
                     | Some t => t
                     | None => generateTitle toLocaleDateString (dc_date d)
                     end).
Proof.
  intros H.
  specialize (H unit (fun g => (js "id", g)) (fun _ => js "2024年1月15日")
                blankHeading someAnalysis tt tt _ eq_refl).
  vm_compute in H. discriminate H.
Qed.

Lemma generateTimelineData_title_witness :
  let d := mkDiaryContent (utcDay 2024 1 15) (js "# Monday")
                          (DiaryParser.extractMetadata (js "# Monday")) in
  let e := mkTimelineEntry (js "id") (utcDay 2024 1 15) (js "Monday")
                           (js "summary") [js "工作"] 4 [js "公园"] in
  generateTimelineData unit (fun g => (js "id", g)) (fun _ => js "2024年1月15日")
                       [d] [someAnalysis] tt = Ok ([e], tt)
  /\ ((forall t, title (metadata d) = Some t -> t <> [] -> te_title e = t)
      /\ (title (metadata d) = None \/ title (metadata d) = Some [] ->
          te_title e = js "2024年1月15日" ++ js " 的日记")).
Proof.
  intros d e. split; [reflexivity|].
  exact (generateTimelineData_title
           unit (fun g => (js "id", g)) (fun _ => js "2024年1月15日")
           [d] [someAnalysis] tt tt [e] 0%nat d e
           eq_refl eq_refl eq_refl).
Defined.

End TimelineExamples.

(* ================================================================== *)
(** * Insertion-ordered sets and maps, and the stable sort *)
(* ================================================================== *)

Section InsertionOrder.

Import TimelineGenerator.

Lemma set_has_In (s : set_t) (k : str) : set_has s k = true <-> In k s.
Proof.
  induction s as [|x s IH]; cbn [set_has In].
  - split; [discriminate | tauto].
  - rewrite orb_true_iff, eqb_eq, IH. tauto.
Qed.

Lemma set_has_false (s : set_t) (k : str) : set_has s k = false <-> ~ In k s.
Proof.
  rewrite <- set_has_In. destruct (set_has s k); split; congruence.
Qed.

Lemma set_add_In (s : set_t) (k x : str) :
  In x (set_add s k) <-> In x s \/ x = k.
Proof.
  unfold set_add. destruct (set_has s k) eqn:E.
  - apply set_has_In in E. split; [tauto | intros [H | ->]; auto].
  - rewrite in_app_iff. cbn [In]. split; intros [H | H]; auto.
    + destruct H as [-> | []]; auto.
Qed.

Lemma set_add_NoDup (s : set_t) (k : str) : NoDup s -> NoDup (set_add s k).
Proof.
  intros H. unfold set_add. destruct (set_has s k) eqn:E; auto.
  apply set_has_false in E.
  apply NoDup_app; auto.
  - constructor; [intros [] | constructor].
  - intros x Hx [-> | []]. contradiction.
Qed.

Lemma set_of_array_In_acc (ks : list str) :
  forall (acc : set_t) (x : str),
    In x (fold_left set_add ks acc) <-> In x acc \/ In x ks.
Proof.
  induction ks as [|k ks IH]; intros acc x; cbn [fold_left In].
  - tauto.
  - rewrite IH, set_add_In. split; intros H; intuition auto.
Qed.

Lemma set_of_array_NoDup_acc (ks : list str) :
  forall acc : set_t, NoDup acc -> NoDup (fold_left set_add ks acc).
Proof.
  induction ks as [|k ks IH]; intros acc H; cbn [fold_left]; auto.
  apply IH, set_add_NoDup, H.
Qed.

Lemma first_index_app (x : str) (l1 l2 : list str) :
  first_index x (l1 ++ l2)
  = if set_has l1 x then first_index x l1
    else (List.length l1 + first_index x l2)%nat.
Proof.
  induction l1 as [|y l1 IH]; cbn [app first_index set_has List.length].
  - reflexivity.
  - destruct (eqb y x); cbn [orb]; [reflexivity|].
    rewrite IH. destruct (set_has l1 x); reflexivity.
Qed.

Lemma first_index_In (x : str) (l : list str) :
  In x l -> (first_index x l < List.length l)%nat.
Proof.
  induction l as [|y l IH]; cbn [In first_index List.length]; [tauto|].
  intros H. destruct (eqb y x) eqn:E; [lia|].
  apply eqb_neq in E. destruct H as [H | H]; [congruence|].
  specialize (IH H). lia.
Qed.

Lemma StronglySorted_weaken {A} (R R' : A -> A -> Prop) (l : list A) :
  (forall a b, In a l -> In b l -> R a b -> R' a b) ->
  StronglySorted R l -> StronglySorted R' l.
Proof.
  intros Himp H. induction H as [|a l Hs IH Hf]; constructor.
  - apply IH. intros x y Hx Hy. apply Himp; right; assumption.
  - rewrite Forall_forall in *. intros y Hy.
    apply Himp; [left; reflexivity | right; assumption | apply Hf, Hy].
Qed.

Lemma StronglySorted_nth {A} (R : A -> A -> Prop) (l : list A) :
  StronglySorted R l ->
  forall i j a b,
    (i < j)%nat -> nth_error l i = Some a -> nth_error l j = Some b -> R a b.
Proof.
  intros H. induction H as [|x l Hs IH Hf]; intros i j a b Hij Ha Hb.
  - destruct i; discriminate.
  - destruct j as [|j]; [lia|]. cbn [nth_error] in Hb.
    destruct i as [|i].
    + cbn in Ha. inversion Ha; subst x.
      rewrite Forall_forall in Hf. apply Hf. eapply nth_error_In, Hb.
    + cbn [nth_error] in Ha. apply (IH i j); auto. lia.
Qed.

Lemma StronglySorted_map_fst {B} (R : str -> str -> Prop) (l : list (str * B)) :
  StronglySorted (fun x y => R (fst x) (fst y)) l
  <-> StronglySorted R (map fst l).
Proof.
  induction l as [|x l IH]; cbn [map].
  - split; constructor.
  - split; intros H; inversion H; subst; constructor;
      try (apply IH; assumption).
    + rewrite Forall_map. assumption.
    + rewrite Forall_map in *. assumption.
Qed.

(** A list without repetition lists its elements by first index. *)
Lemma NoDup_first_index (l : list str) :
  NoDup l ->
  StronglySorted (fun a b => (first_index a l < first_index b l)%nat) l.
Proof.
  induction 1 as [|x l Hx Hnd IH]; constructor.
  - eapply StronglySorted_weaken; [|exact IH].
    intros a b Ha Hb Hab. cbv beta in Hab. cbn [first_index].
    assert (eqb x a = false) by (apply eqb_neq; intros ->; contradiction).
    assert (eqb x b = false) by (apply eqb_neq; intros ->; contradiction).
    rewrite H, H0. lia.
  - rewrite Forall_forall. intros b Hb. cbn [first_index].
    rewrite eqb_refl.
    assert (eqb x b = false) by (apply eqb_neq; intros ->; contradiction).
    rewrite H. lia.
Qed.

(** A set built from an array lists the elements by first occurrence. *)
Lemma set_of_array_order_acc (ks : list str) :
  forall acc : set_t,
    NoDup acc ->
    StronglySorted
      (fun a b => (first_index a (acc ++ ks) < first_index b (acc ++ ks))%nat)
      (fold_left set_add ks acc).
Proof.
  induction ks as [|k ks IH]; intros acc Hnd; cbn [fold_left].
  - rewrite app_nil_r. apply NoDup_first_index, Hnd.
  - unfold set_add at 2. destruct (set_has acc k) eqn:Hk.
    + eapply StronglySorted_weaken; [|apply IH, Hnd].
      intros a b _ _. cbv beta. rewrite !first_index_app. cbn [first_index].
      apply set_has_In in Hk.
      destruct (set_has acc a) eqn:Ea, (set_has acc b) eqn:Eb; try lia.
      * apply set_has_In, first_index_In in Ea. lia.
      * apply set_has_In, first_index_In in Eb. lia.
      * assert (eqb k a = false)
          by (apply eqb_neq; intros ->; apply set_has_false in Ea; auto).
        assert (eqb k b = false)
          by (apply eqb_neq; intros ->; apply set_has_false in Eb; auto).
        rewrite H, H0. lia.
    + replace (acc ++ k :: ks) with ((acc ++ [k]) ++ ks)
        by (rewrite <- app_assoc; reflexivity).
      apply IH. apply set_has_false in Hk.
      apply NoDup_app; auto.
      * constructor; [intros [] | constructor].
      * intros x Hx [-> | []]. contradiction.
Qed.

Lemma set_of_array_facts (ks : list str) :
  NoDup (set_of_array ks)
  /\ (forall x, In x (set_of_array ks) <-> In x ks)
  /\ StronglySorted
       (fun a b => (first_index a ks < first_index b ks)%nat)
       (set_of_array ks).
Proof.
  unfold set_of_array. split; [|split].
  - apply set_of_array_NoDup_acc. constructor.
  - intros x. rewrite set_of_array_In_acc. cbn [In]. tauto.
  - apply (set_of_array_order_acc ks []). constructor.
Qed.

(** ** The counting map *)

Lemma map_set_keys (m : map_t) (k : str) (v : Z) :
  map fst (map_set m k v) = set_add (map fst m) k.
Proof.
  induction m as [|[k' v'] m IH]; cbn [map_set map fst].
  - reflexivity.
  - unfold set_add. cbn [set_has].
    destruct (eqb k' k) eqn:E; cbn [map fst orb]; [reflexivity|].
    rewrite IH. unfold set_add.
    destruct (set_has (map fst m) k); reflexivity.
Qed.

Lemma map_get_set (m : map_t) (k : str) (v : Z) (k' : str) :
  map_get (map_set m k v) k' = if eqb k k' then Some v else map_get m k'.
Proof.
  induction m as [|[k1 v1] m IH]; cbn [map_set map_get].
  - reflexivity.
  - destruct (eqb k1 k) eqn:E1; cbn [map_get].
    + apply eqb_eq in E1; subst k1.
      destruct (eqb k k'); reflexivity.
    + rewrite IH. destruct (eqb k1 k') eqn:E2; [|reflexivity].
      apply eqb_eq in E2; subst k'. rewrite eqb_sym, E1. reflexivity.
Qed.

Lemma countKeyword_keys (m : map_t) (k : str) :
  map fst (countKeyword m k) = set_add (map fst m) k.
Proof. apply map_set_keys. Qed.

Lemma countKeyword_count (m : map_t) (k k' : str) :
  or_zero (map_get (countKeyword m k) k')
  = or_zero (map_get m k') + (if eqb k k' then 1 else 0).
Proof.
  unfold countKeyword. rewrite map_get_set.
  destruct (eqb k k') eqn:E.
  - apply eqb_eq in E; subst k'. cbn [or_zero]. reflexivity.
  - lia.
Qed.

Lemma count_all_keys (ks : list str) :
  forall m : map_t,
    map fst (fold_left countKeyword ks m) = fold_left set_add ks (map fst m).
Proof.
  induction ks as [|k ks IH]; intros m; cbn [fold_left]; [reflexivity|].
  rewrite IH, countKeyword_keys. reflexivity.
Qed.

Lemma count_all_count (ks : list str) (k' : str) :
  forall m : map_t,
    or_zero (map_get (fold_left countKeyword ks m) k')
    = or_zero (map_get m k') + occurrences k' ks.
Proof.
  induction ks as [|k ks IH]; intros m; cbn [fold_left occurrences]; [lia|].
  rewrite IH, countKeyword_count. lia.
Qed.

Lemma map_get_In (m : map_t) (k : str) (v : Z) :
  NoDup (map fst m) -> In (k, v) m -> map_get m k = Some v.
Proof.
  induction m as [|[k1 v1] m IH]; cbn [map fst In map_get]; [tauto|].
  intros Hnd [H | H].
  - inversion H; subst. rewrite eqb_refl. reflexivity.
  - inversion Hnd; subst. destruct (eqb k1 k) eqn:E.
    + apply eqb_eq in E; subst k1.
      exfalso. apply H2. change k with (fst (k, v)). apply in_map, H.
    + apply IH; assumption.
Qed.

Lemma map_get_Some_In (m : map_t) (k : str) (v : Z) :
  map_get m k = Some v -> In (k, v) m.
Proof.
  induction m as [|[k1 v1] m IH]; cbn [map_get In]; [discriminate|].
  destruct (eqb k1 k) eqn:E.
  - apply eqb_eq in E; subst k1. intros H; inversion H; auto.
  - auto.
Qed.

Lemma occurrences_nonneg (k : str) (ks : list str) : 0 <= occurrences k ks.
Proof.
  induction ks as [|x ks IH]; cbn [occurrences]; [lia|].
  destruct (eqb x k); lia.
Qed.

Lemma occurrences_pos (k : str) (ks : list str) :
  0 < occurrences k ks <-> In k ks.
Proof.
  induction ks as [|x ks IH]; cbn [occurrences In]; [split; [lia | tauto]|].
  pose proof (occurrences_nonneg k ks).
  destruct (eqb x k) eqn:E.
  - apply eqb_eq in E. split; [auto | lia].
  - apply eqb_neq in E. rewrite Z.add_0_l, IH. split; [auto | intros [|]; tauto].
Qed.

(** ** The sort *)

Lemma sort_insert_perm {A} (cmp : A -> A -> Z) (x : A) (l : list A) :
  Permutation (sort_insert cmp x l) (x :: l).
Proof.
  induction l as [|y l IH]; cbn [sort_insert]; [reflexivity|].
  destruct (cmp x y <=? 0); [reflexivity|].
  rewrite IH. apply perm_swap.
Qed.

Lemma sort_perm {A} (cmp : A -> A -> Z) (l : list A) :
  Permutation (sort cmp l) l.
Proof.
  induction l as [|x l IH]; cbn [sort]; [reflexivity|].
  rewrite sort_insert_perm, IH. reflexivity.
Qed.

Section Stable.

Variable pos : str * Z -> nat.

Local Abbreviation sorted_rel := (Spec.sorted_rel pos).

Lemma sort_insert_sorted (x : str * Z) (l : list (str * Z)) :
  StronglySorted sorted_rel l ->
  Forall (fun y => (pos x < pos y)%nat) l ->
  StronglySorted sorted_rel (sort_insert byCountDesc x l).
Proof.
  intros Hs. induction Hs as [|y l Hs IH Hf]; intros Hx; cbn [sort_insert].
  - constructor; constructor.
  - inversion Hx as [|? ? Hxy Hxl]; subst.
    unfold byCountDesc at 1.
    destruct (snd y - snd x <=? 0) eqn:E.
    + apply Z.leb_le in E. constructor; [constructor; assumption|].
      constructor.
      * unfold Spec.sorted_rel. lia.
      * rewrite Forall_forall in *. intros z Hz.
        specialize (Hf z Hz). specialize (Hxl z Hz).
        unfold Spec.sorted_rel in *. lia.
    + apply Z.leb_gt in E. constructor; [apply IH, Hxl|].
      eapply Permutation_Forall;
        [symmetry; apply sort_insert_perm|].
      constructor; [unfold Spec.sorted_rel; lia | exact Hf].
Qed.

Lemma sort_sorted (l : list (str * Z)) :
  StronglySorted (fun x y => (pos x < pos y)%nat) l ->
  StronglySorted sorted_rel (sort byCountDesc l).
Proof.
  induction 1 as [|x l Hs IH Hf]; cbn [sort]; [constructor|].
  apply sort_insert_sorted; [exact IH|].
  eapply Permutation_Forall; [symmetry; apply sort_perm | exact Hf].
Qed.

End Stable.

End InsertionOrder.

(* ================================================================== *)
(** * Ranking by frequency *)
(* ================================================================== *)

Section Ranking.

Import TimelineGenerator.

Lemma slice0_firstn {A} (a : list A) (e : Z) :
  0 <= e -> slice0 a e = firstn (Z.to_nat e) a.
Proof.
  intros He. unfold slice0.
  destruct (e <? 0) eqn:E; [apply Z.ltb_lt in E; lia|].
  destruct (Z.le_ge_cases e (Z.of_nat (List.length a))) as [H | H].
  - rewrite Z.min_l by lia. reflexivity.
  - rewrite Z.min_r by lia. rewrite Nat2Z.id, firstn_all.
    symmetry. apply firstn_all2. lia.
Qed.

Lemma nth_error_firstn_Some {A} (n i : nat) (l : list A) (x : A) :
  nth_error (firstn n l) i = Some x -> nth_error l i = Some x.
Proof.
  revert i l; induction n as [|n IH]; intros i l H.
  - destruct i; discriminate.
  - destruct l as [|y l]; [destruct i; discriminate|].
    destruct i as [|i]; cbn in *; auto.
Qed.

(** The counting map of a key list, sorted by descending count: its keys
    are the distinct keys, each with its number of occurrences, ordered by
    count and, among equal counts, by first occurrence. *)
Lemma ranking_facts (ks : list str) :
  let ranked := sort byCountDesc (fold_left countKeyword ks []) in
  NoDup (map fst ranked)
  /\ (forall k c, In (k, c) ranked <-> In k ks /\ c = occurrences k ks)
  /\ StronglySorted (ranks_before ks) (map fst ranked).
Proof.
  intros ranked.
  set (m := fold_left countKeyword ks []) in *.
  assert (Hkeys : map fst m = set_of_array ks)
    by (unfold m; rewrite count_all_keys; reflexivity).
  destruct (set_of_array_facts ks) as (Hnd & Hin & Hord).
  assert (Hperm : Permutation ranked m) by apply sort_perm.
  assert (Hndm : NoDup (map fst m)) by (rewrite Hkeys; exact Hnd).
  assert (Hcount : forall k c, In (k, c) m -> c = occurrences k ks).
  { intros k c H. apply map_get_In in H; auto.
    pose proof (count_all_count ks k []) as C. fold m in C.
    rewrite H in C. cbn in C. exact C. }
  assert (Hmem : forall k c, In (k, c) m <-> In k ks /\ c = occurrences k ks).
  { intros k c. split.
    - intros H. split; [|apply Hcount, H].
      apply Hin. rewrite <- Hkeys. change k with (fst (k, c)).
      apply in_map, H.
    - intros [Hk ->]. apply Hin in Hk. rewrite <- Hkeys in Hk.
      apply in_map_iff in Hk as ([k' c'] & Hf & Hk). cbn in Hf; subst k'.
      rewrite <- (Hcount _ _ Hk). exact Hk. }
  split; [|split].
  - eapply Permutation_NoDup; [|exact Hndm].
    apply Permutation_map. symmetry. exact Hperm.
  - intros k c. rewrite <- Hmem. split; apply Permutation_in; auto.
    symmetry; exact Hperm.
  - apply StronglySorted_map_fst.
    eapply StronglySorted_weaken;
      [|apply (sort_sorted (fun x => first_index (fst x) ks))].
    + intros [a ca] [b cb] Ha Hb. unfold Spec.sorted_rel, ranks_before.
      cbn [fst snd].
      apply (Permutation_in _ Hperm), Hcount in Ha.
      apply (Permutation_in _ Hperm), Hcount in Hb. subst. tauto.
    + apply (StronglySorted_map_fst
               (fun a b => (first_index a ks < first_index b ks)%nat)).
      rewrite Hkeys. exact Hord.
Qed.

Lemma ranks_before_irrefl (ks : list str) (a b : str) :
  ranks_before ks a b -> ranks_before ks b a -> False.
Proof. unfold ranks_before. lia. Qed.

End Ranking.

(* ================================================================== *)
(** * Keywords by word frequency *)
(* ================================================================== *)

Section Keywords.

Import ContentAnalyzer.

Lemma countWord_filter (words : list str) :
  forall m : map_t,
    fold_left countWord words m
    = fold_left TimelineGenerator.countKeyword
                (filter (fun w => 1 <? Js.length w) words) m.
Proof.
  induction words as [|w ws IH]; intros m; cbn [fold_left filter]; [reflexivity|].
  unfold countWord at 2. destruct (1 <? Js.length w); cbn [fold_left]; apply IH.
Qed.

Lemma split_ws_go_chars (P : N -> Prop) (s : str) :
  (forall c, In c s -> isWhiteSpace c = false -> P c) ->
  forall (cur : str) (in_run : bool) (w : str),
    Forall P cur -> In w (split_ws_go s cur in_run) -> Forall P w.
Proof.
  induction s as [|c s IH]; intros Hs cur in_run w Hcur Hw.
  - cbn in Hw. destruct Hw as [<- | []]. apply Forall_rev, Hcur.
  - assert (Hs' : forall c0, In c0 s -> isWhiteSpace c0 = false -> P c0)
      by (intros; apply Hs; [right|]; assumption).
    cbn [split_ws_go] in Hw. destruct (isWhiteSpace c) eqn:Ec.
    + destruct in_run.
      * apply (IH Hs' [] true w); [constructor | exact Hw].
      * destruct Hw as [<- | Hw]; [apply Forall_rev, Hcur|].
        apply (IH Hs' [] true w); [constructor | exact Hw].
    + eapply IH; [exact Hs' | | exact Hw].
      constructor; [apply Hs; [left; reflexivity | exact Ec] | exact Hcur].
Qed.

Lemma tokens_wellformed (text w : str) :
  In w (tokens text) ->
  1 < Js.length w /\ Forall (fun c => isWordChar c = true) w.
Proof.
  unfold tokens. rewrite filter_In. intros [Hw Hl].
  split; [apply Z.ltb_lt, Hl|].
  eapply split_ws_go_chars; [| constructor | exact Hw].
  intros c Hc Hws. unfold cleanText in Hc.
  apply in_map_iff in Hc as (c0 & Hc0 & _).
  destruct (isWordChar c0) eqn:E; subst c; [exact E | discriminate].
Qed.

Lemma wordChar_not_space (c : N) :
  isWordChar c = true -> isWhiteSpace c = false.
Proof.
  unfold isWordChar, isWhiteSpace, between. intros H.
  repeat rewrite orb_true_iff in H. repeat rewrite andb_true_iff in H.
  repeat rewrite N.leb_le in H.
  repeat (apply orb_false_iff; split);
    try (apply andb_false_iff; rewrite !N.leb_gt; lia);
    try (apply N.eqb_neq; lia).
Qed.

(** Cleaning and splitting on white space finds the maximal runs of word
    characters (and empty pieces besides). *)
Lemma split_clean_runs (s : str) :
  forall (cur : str) (in_run : bool),
    (in_run = true -> cur = []) ->
    filter truthy (split_ws_go (cleanText s) cur in_run)
    = runs_go isWordChar s cur.
Proof.
  induction s as [|c s IH]; intros cur in_run Hrun.
  - cbn. destruct cur as [|x cur]; [reflexivity|].
    destruct (rev (x :: cur)) eqn:E; [|reflexivity].
    apply (f_equal (@List.length _)) in E.
    rewrite length_rev in E. discriminate.
  - cbn [cleanText map split_ws_go runs_go]. fold (cleanText s).
    destruct (isWordChar c) eqn:Ec.
    + rewrite (wordChar_not_space _ Ec). apply IH. discriminate.
    + change (isWhiteSpace 32) with true. cbv iota.
      destruct in_run.
      * rewrite (Hrun eq_refl). apply IH. reflexivity.
      * cbn [filter]. destruct cur as [|x cur].
        -- cbn [rev truthy]. apply IH. reflexivity.
        -- destruct (rev (x :: cur)) eqn:E.
           ++ apply (f_equal (@List.length _)) in E.
              rewrite length_rev in E. discriminate.
           ++ cbn [truthy]. f_equal. apply IH. reflexivity.
Qed.

Lemma filter_filter_long (l : list str) :
  filter (fun w => 1 <? Js.length w) (filter truthy l)
  = filter (fun w => 1 <? Js.length w) l.
Proof.
  induction l as [|w l IH]; [reflexivity|].
  cbn [filter]. destruct w as [|x w].
  - cbn [truthy]. rewrite IH. reflexivity.
  - cbn [truthy filter]. rewrite IH. reflexivity.
Qed.

Lemma tokens_runs (text : str) :
  tokens text = filter (fun w => 1 <? Js.length w) (runs isWordChar text).
Proof.
  unfold tokens, runs, split_ws.
  rewrite <- (split_clean_runs text [] false) by discriminate.
  symmetry. apply filter_filter_long.
Qed.

Example keywords_counts_1_3 :
  extractKeywordsWithFrequency (mk None None 1) (js "apple, pear! pear? (pear)")
  = [js "pear"].
Proof. reflexivity. Qed.

Example keywords_ties_first_seen :
  extractKeywordsWithFrequency (mk None None 5)
    (js "今天 weather 很好, weather 今天; x 1 go go")
  = [js "今天"; js "weather"; js "go"; js "很好"].
Proof. reflexivity. Qed.

(** C3.  The heuristic keywords are the first [maxKeywords] elements of a
    ranking of the tokens of the text, the tokens being the pieces, longer
    than one code unit, that white space separates once every code unit
    outside U+4E00..U+9FA5, ASCII letters and digits is made a space; they
    are the maximal runs of such characters that are longer than one code
    unit.  The ranking lists every distinct token once, by descending
    number of occurrences and, among tokens of equal number, in the order
    of their first occurrence.  When the tokens are [A] once and [B] three
    times and [maxKeywords] is 1, the result is [[B]]. *)
Theorem extractKeywordsWithFrequency_spec (self : t) (text : str) :
  0 <= maxKeywords self ->
  exists ranked : list str,
    extractKeywordsWithFrequency self text
    = firstn (Z.to_nat (maxKeywords self)) ranked
    /\ NoDup ranked
    /\ (forall w, In w ranked <-> In w (tokens text))
    /\ StronglySorted (ranks_before (tokens text)) ranked
    /\ (forall w, In w (tokens text) ->
          1 < Js.length w /\ Forall (fun c => isWordChar c = true) w)
    /\ tokens text
       = filter (fun w => 1 <? Js.length w) (runs isWordChar text)
    /\ (forall A B,
          maxKeywords self = 1 ->
          (forall w, In w (tokens text) -> w = A \/ w = B) ->
          occurrences A (tokens text) = 1 ->
          occurrences B (tokens text) = 3 ->
          extractKeywordsWithFrequency self text = [B]).
Proof.
  intros Hmax.
  set (ranked := sort TimelineGenerator.byCountDesc
                      (fold_left TimelineGenerator.countKeyword (tokens text) [])).
  assert (Hres : extractKeywordsWithFrequency self text
                 = firstn (Z.to_nat (maxKeywords self)) (map fst ranked)).
  { unfold extractKeywordsWithFrequency.
    rewrite countWord_filter, slice0_firstn by exact Hmax.
    rewrite firstn_map. reflexivity. }
  destruct (ranking_facts (tokens text)) as (Hnd & Hin & Hord).
  fold ranked in Hnd, Hin, Hord.
  assert (Hmem : forall w, In w (map fst ranked) <-> In w (tokens text)).
  { intros w. split.
    - intros H. apply in_map_iff in H as ([k c] & <- & H).
      apply Hin in H. tauto.
    - intros H. change w with (fst (w, occurrences w (tokens text))).
      apply in_map, Hin. auto. }
  exists (map fst ranked).
  split; [exact Hres|]. split; [exact Hnd|]. split; [exact Hmem|].
  split; [exact Hord|]. split; [intros w; apply tokens_wellformed|].
  split; [apply tokens_runs|].
  intros A B H1 Hall HA HB. rewrite Hres, H1.
  assert (InB : In B (map fst ranked))
    by (apply Hmem, occurrences_pos; lia).
  assert (InA : In A (map fst ranked))
    by (apply Hmem, occurrences_pos; lia).
  destruct (map fst ranked) as [|h tl] eqn:E; [destruct InB|].
  change (Z.to_nat 1) with 1%nat. cbn [firstn]. f_equal.
  assert (Hh : h = A \/ h = B) by (apply Hall, Hmem; left; reflexivity).
  destruct Hh as [-> | ->]; [exfalso | reflexivity].
  inversion Hord as [|? ? _ Hf]; subst. rewrite Forall_forall in Hf.
  destruct InB as [HBA | HBt].
  - rewrite HBA in HA. lia.
  - specialize (Hf B HBt). unfold ranks_before in Hf. lia.
Qed.

End Keywords.

Lemma extractKeywordsWithFrequency_witness :
  0 <= ContentAnalyzer.maxKeywords (ContentAnalyzer.mk None None 1)
  /\ ContentAnalyzer.extractKeywordsWithFrequency
       (ContentAnalyzer.mk None None 1) (js "apple, pear! pear? (pear)")
     = [js "pear"].
Proof.
  split; [cbn; lia|].
  destruct (extractKeywordsWithFrequency_spec
              (ContentAnalyzer.mk None None 1)
              (js "apple, pear! pear? (pear)"))
    as (ranked & _ & _ & _ & _ & _ & _ & H); [cbn; lia|].
  apply (H (js "apple") (js "pear")); try reflexivity.
  intros w Hw. vm_compute in Hw.
  destruct Hw as [<- | [<- | [<- | [<- | []]]]]; auto.
Defined.

(* ================================================================== *)
(** * The most frequent keywords of a timeline *)
(* ================================================================== *)

Section TopKeywords.

Import TimelineGenerator.

Lemma count_entries_flat (entries : list TimelineEntry) :
  forall m : map_t,
    fold_left
      (fun keywordCount entry =>
         fold_left countKeyword (keywords entry) keywordCount)
      entries m
    = fold_left countKeyword (allKeywords entries) m.
Proof.
  induction entries as [|e es IH]; intros m; [reflexivity|].
  cbn [fold_left]. unfold allKeywords. cbn [flat_map].
  rewrite fold_left_app. apply IH.
Qed.

Example top_keywords_tie :
  findTopKeywords
    [entryWith [js "工作"; js "学习"]; entryWith [js "学习"; js "工作"];
     entryWith [js "学习"; js "休息"; js "工作"]]
    None
  = [(js "工作", 3); (js "学习", 3); (js "休息", 1)].
Proof. reflexivity. Qed.

(** C6.  [findTopKeywords] returns the first [limit] pairs (10 when no
    limit is passed) of a ranking of the keywords of all entries: every
    distinct keyword once, with the number of its occurrences across the
    entries, by descending count and, among equal counts, in the order of
    first occurrence.  So of two returned keywords with equal counts the one
    met first comes first, as [工作] before [学习] when each occurs three
    times and [工作] is met first. *)
Theorem findTopKeywords_spec (entries : list TimelineEntry) (limit : option Z) :
  let n := match limit with Some n => n | None => 10 end in
  let ks := allKeywords entries in
  0 <= n ->
  exists ranked : list (str * Z),
    findTopKeywords entries limit = firstn (Z.to_nat n) ranked
    /\ NoDup (map fst ranked)
    /\ (forall k c, In (k, c) ranked <-> In k ks /\ c = occurrences k ks)
    /\ StronglySorted (ranks_before ks) (map fst ranked)
    /\ (forall i j a b c,
          nth_error (findTopKeywords entries limit) i = Some (a, c) ->
          nth_error (findTopKeywords entries limit) j = Some (b, c) ->
          (first_index a ks < first_index b ks)%nat ->
          (i < j)%nat)
    /\ (forall e1 e2 e3,
          entries = [e1; e2; e3] ->
          keywords e1 = [js "工作"; js "学习"] ->
          keywords e2 = [js "工作"; js "学习"] ->
          keywords e3 = [js "工作"; js "学习"] ->
          findTopKeywords entries limit
          = firstn (Z.to_nat n) [(js "工作", 3); (js "学习", 3)]).
Proof.
  intros n ks Hn.
  set (ranked := sort byCountDesc (fold_left countKeyword ks [])).
  assert (Hres : findTopKeywords entries limit = firstn (Z.to_nat n) ranked).
  { unfold findTopKeywords. fold n.
    rewrite count_entries_flat, slice0_firstn by exact Hn. reflexivity. }
  destruct (ranking_facts ks) as (Hnd & Hin & Hord).
  fold ranked in Hnd, Hin, Hord.
  exists ranked.
  split; [exact Hres|]. split; [exact Hnd|]. split; [exact Hin|].
  split; [exact Hord|]. split.
  - intros i j a b c Ha Hb Hlt. rewrite Hres in Ha, Hb.
    apply nth_error_firstn_Some in Ha, Hb.
    assert (Ca : c = occurrences a ks)
      by (apply (Hin a c); eapply nth_error_In, Ha).
    assert (Cb : c = occurrences b ks)
      by (apply (Hin b c); eapply nth_error_In, Hb).
    destruct (Nat.lt_trichotomy i j) as [H | [H | H]]; [exact H | |].
    + subst j. rewrite Ha in Hb. inversion Hb; subst. lia.
    + exfalso.
      assert (R : ranks_before ks b a).
      { eapply (StronglySorted_nth _ _ Hord j i); [exact H | |].
        - rewrite nth_error_map, Hb. reflexivity.
        - rewrite nth_error_map, Ha. reflexivity. }
      unfold ranks_before in R. lia.
  - intros e1 e2 e3 He K1 K2 K3. rewrite Hres. f_equal.
    unfold ranked, ks, allKeywords. rewrite He. cbn [flat_map].
    rewrite K1, K2, K3. reflexivity.
Qed.

End TopKeywords.

Lemma findTopKeywords_witness :
  0 <= 10
  /\ exists ranked : list (str * Z),
      TimelineGenerator.findTopKeywords
        [entryWith [js "工作"; js "学习"]; entryWith [js "学习"; js "工作"]] None
      = firstn 10 ranked
      /\ NoDup (map fst ranked).
Proof.
  split; [lia|].
  destruct (findTopKeywords_spec
              [entryWith [js "工作"; js "学习"]; entryWith [js "学习"; js "工作"]]
              None)
    as (ranked & H1 & H2 & _); [cbn; lia|].
  exists ranked. split; [exact H1 | exact H2].
Defined.

(* ================================================================== *)
(** * Activities by rules *)
(* ================================================================== *)

Section Activities.

Import ContentAnalyzer.

Example activities_dedup :
  extractActivitiesWithRules (js "今天去公园，然后做作业。完成了作业！去公园")
  = [js "公园"; js "作业"; js "了作业"].
Proof. reflexivity. Qed.

Example activities_phrases :
  extractedPhrases (js "今天去公园，然后做作业。完成了作业！去公园")
  = [js "公园"; js "作业"; js "了作业"; js "公园"].
Proof. reflexivity. Qed.

(** C10.  The rule-based activity extraction returns a list without
    repetition that holds exactly the extracted phrases, each at the place
    of its first occurrence: one returned phrase precedes another exactly
    when its first occurrence among the extracted phrases is the earlier. *)
Theorem extractActivitiesWithRules_spec (text : str) :
  let phrases := extractedPhrases text in
  let result := extractActivitiesWithRules text in
  NoDup result
  /\ (forall a, In a result <-> In a phrases)
  /\ StronglySorted
       (fun a b => (first_index a phrases < first_index b phrases)%nat) result
  /\ (forall i j a b,
        nth_error result i = Some a -> nth_error result j = Some b ->
        ((i < j)%nat <-> (first_index a phrases < first_index b phrases)%nat)).
Proof.
  intros phrases result.
  destruct (set_of_array_facts phrases) as (Hnd & Hin & Hord).
  change (set_of_array phrases) with result in Hnd, Hin, Hord.
  split; [exact Hnd|]. split; [exact Hin|]. split; [exact Hord|].
  intros i j a b Ha Hb. split.
  - intros Hij. exact (StronglySorted_nth _ _ Hord i j a b Hij Ha Hb).
  - intros Hlt.
    destruct (Nat.lt_trichotomy i j) as [L | [L | L]]; [exact L | |].
    + subst j. rewrite Ha in Hb. inversion Hb; subst. lia.
    + pose proof (StronglySorted_nth _ _ Hord j i b a L Hb Ha) as R.
      cbv beta in R. lia.
Qed.

End Activities.

(* ================================================================== *)
(** * Mood score: explicit value, then backend *)
(* ================================================================== *)

Section MoodScore.

Import ContentAnalyzer.

Lemma extractMetadata_mood (text : str) :
  mood (DiaryParser.extractMetadata text)
  = match search DiaryParser.moodRegex_at text with
    | Some cap => parseInt cap
    | None => None
    end.
Proof. reflexivity. Qed.

Lemma hasService_backend (self : t) :
  hasService self = match backend self with Some _ => true | None => false end.
Proof.
  unfold hasService, backend. destruct (openAI self), (ollama self); reflexivity.
Qed.


(** The scorer in terms of the mood value that metadata extraction finds
    in the same text. *)
Lemma analyzeMoodScore_by_metadata (self : t) (text : str) :
  analyzeMoodScore self text
  = match mood (DiaryParser.extractMetadata text) with
    | Some n =>
      if (1 <=? n) && (n <=? 5) then Ok n
      else if hasService self then analyzeMoodWithAI self text
           else Ok (analyzeMoodWithDictionary text)
    | None =>
      if hasService self then analyzeMoodWithAI self text
      else Ok (analyzeMoodWithDictionary text)
    end.
Proof.
  rewrite extractMetadata_mood. unfold analyzeMoodScore.
  destruct (search DiaryParser.moodRegex_at text) as [cap|]; [|reflexivity].
  destruct (parseInt cap) as [n|]; [|reflexivity].
  unfold inRange. destruct ((1 <=? n) && (n <=? 5)); reflexivity.
Qed.

Lemma in_range_true (n : Z) : (1 <=? n) && (n <=? 5) = true <-> 1 <= n <= 5.
Proof. rewrite andb_true_iff, !Z.leb_le. tauto. Qed.

Example mood_explicit_wins :
  analyzeMoodScore (mk None None 5) (js "今天很难过。心情：4") = Ok 4.
Proof. reflexivity. Qed.

Example mood_explicit_out_of_range :
  analyzeMoodScore (mk None None 5) (js "开心开心 心情: 9") = Ok 5.
Proof. reflexivity. Qed.

Example mood_backend_unparseable :
  analyzeMoodScore
    (mk (Some (mkService (fun _ => Ok (js "分数：4")))) None 5) (js "平常的一天")
  = Ok 3.
Proof. reflexivity. Qed.


End MoodScore.


(* ================================================================== *)
(** * Resolving the date of a diary *)
(* ================================================================== *)

Section DateInfo.

Import DiaryParser.

Variable moment : str -> str -> option Date.

(** The order of the three sources of the date. *)
Lemma extractDateInfo_precedence (self : t) (fileName body : str) (now : Date) :
  let stem := nth 0 (split fileName (js ".")) [] in
  let r := extractDateInfo moment self fileName body now in
  (forall d, moment stem (dateFormat self) = Some d -> r = d)
  /\ (forall m d,
        moment stem (dateFormat self) = None ->
        search dateRegex_at body = Some m ->
        moment m (js "YYYY-MM-DD") = Some d -> r = d)
  /\ (moment stem (dateFormat self) = None ->
      (search dateRegex_at body = None
       \/ exists m, search dateRegex_at body = Some m
                    /\ moment m (js "YYYY-MM-DD") = None) ->
      r = now).
Proof.
  intros stem r. subst r. unfold extractDateInfo. fold stem.
  split; [|split].
  - intros d ->. reflexivity.
  - intros m d -> -> ->. reflexivity.
  - intros -> [-> | (m & -> & ->)]; reflexivity.
Qed.

Lemma startsWith_dot (c : N) (s : str) :
  startsWith (c :: s) (js ".") = N.eqb 46 c.
Proof.
  change (js ".") with [46%N]. cbn [startsWith].
  destruct s; apply andb_true_r.
Qed.

Lemma stripExtension_no_dot (s : str) :
  existsb (N.eqb 46) s = false -> stripExtension s = s.
Proof.
  induction s as [|c s IH]; [reflexivity|].
  cbn [existsb stripExtension]. intros H.
  apply orb_false_iff in H as [Hc Hs]. rewrite Hs.
  rewrite N.eqb_sym, Hc. reflexivity.
Qed.

Lemma dots_zero (s : str) : dots s = 0%nat -> existsb (N.eqb 46) s = false.
Proof.
  unfold dots. induction s as [|c s IH]; [reflexivity|].
  cbn [filter existsb]. destruct (N.eqb 46 c); cbn [List.length orb].
  - discriminate.
  - exact IH.
Qed.

(** What the code parses is the identifier without its extension as long
    as the identifier has at most one dot. *)
Lemma first_piece_stripExtension (s : str) :
  forall cur : str,
    (dots s <= 1)%nat ->
    nth 0 (split_go (js ".") s cur 0) [] = rev cur ++ stripExtension s.
Proof.
  induction s as [|c s IH]; intros cur Hd.
  - cbn. rewrite app_nil_r. reflexivity.
  - cbn [split_go]. rewrite startsWith_dot.
    unfold dots in Hd. cbn [filter] in Hd. cbn [stripExtension].
    destruct (N.eqb 46 c) eqn:Ec.
    + cbn [List.length] in Hd.
      assert (Hz : dots s = 0%nat) by (unfold dots; lia).
      rewrite (dots_zero _ Hz). rewrite N.eqb_sym, Ec.
      cbn [nth]. rewrite app_nil_r. reflexivity.
    + rewrite IH by exact Hd. cbn [rev]. rewrite <- app_assoc. cbn [app].
      rewrite N.eqb_sym, Ec.
      destruct (existsb (N.eqb 46) s) eqn:Es; [reflexivity|].
      rewrite (stripExtension_no_dot _ Es). reflexivity.
Qed.

Lemma extractDateInfo_single_dot (self : t) (fileName body : str) (now d : Date) :
  (dots fileName <= 1)%nat ->
  moment (stripExtension fileName) (dateFormat self) = Some d ->
  extractDateInfo moment self fileName body now = d.
Proof.
  intros Hd Hm. unfold extractDateInfo, split.
  rewrite first_piece_stripExtension by exact Hd.
  cbn [rev app]. rewrite Hm. reflexivity.
Qed.

(** C4, where the code departs from the claim.  With the format
    [YYYY.MM.DD], the file name [2024.01.15.md] without its extension is
    [2024.01.15], which matches the format exactly; but the code hands the
    parser only what precedes the first dot, [2024], and returns whatever
    date the parser reads from that (or the body or clock fallback); the day
    and month of the name are never seen.  The same happens for the bare
    identifier [2024.01.15].  So whenever the parser reads different dates
    from [2024] and from [2024.01.15], the result is not the date of the
    identifier. *)
Theorem extractDateInfo_first_dot (now : Date) :
  let self := mk (js "diary") (js "YYYY.MM.DD") in
  let read := match moment (js "2024") (js "YYYY.MM.DD") with
              | Some d => d
              | None => now
              end in
  stripExtension (js "2024.01.15.md") = js "2024.01.15"
  /\ nth 0 (split (js "2024.01.15.md") (js ".")) [] = js "2024"
  /\ extractDateInfo moment self (js "2024.01.15.md") [] now = read
  /\ extractDateInfo moment self (js "2024.01.15") [] now = read
  /\ (forall first exact,
        moment (js "2024") (js "YYYY.MM.DD") = Some first ->
        moment (js "2024.01.15") (js "YYYY.MM.DD") = Some exact ->
        first <> exact ->
        extractDateInfo moment self (js "2024.01.15.md") [] now <> exact).
Proof.
  intros self read.
  assert (E1 : extractDateInfo moment self (js "2024.01.15.md") [] now = read).
  { unfold extractDateInfo, read.
    change (nth 0 (split _ (js ".")) []) with (js "2024").
    change (dateFormat self) with (js "YYYY.MM.DD").
    destruct (moment (js "2024") (js "YYYY.MM.DD")); reflexivity. }
  assert (E2 : extractDateInfo moment self (js "2024.01.15") [] now = read).
  { unfold extractDateInfo, read.
    change (nth 0 (split _ (js ".")) []) with (js "2024").
    change (dateFormat self) with (js "YYYY.MM.DD").
    destruct (moment (js "2024") (js "YYYY.MM.DD")); reflexivity. }
  split; [reflexivity|]. split; [reflexivity|].
  split; [exact E1|]. split; [exact E2|].
  intros first exact Hf He Hne. rewrite E1. unfold read. rewrite Hf. exact Hne.
Qed.

End DateInfo.

(* ================================================================== *)
(** * Further facts about the primitives *)
(* ================================================================== *)

Section MoreStringFacts.

Lemma dropWhile_head (p : N -> bool) (s : str) :
  match dropWhile p s with
  | [] => True
  | c :: _ => p c = false
  end.
Proof.
  induction s as [|c s IH]; cbn [dropWhile]; [exact I|].
  destruct (p c) eqn:E; [exact IH | exact E].
Qed.

Lemma dropWhile_split (p : N -> bool) (s : str) :
  exists pre, s = pre ++ dropWhile p s /\ Forall (fun c => p c = true) pre.
Proof.
  induction s as [|c s (pre & E & F)]; cbn [dropWhile].
  - exists []. split; [reflexivity | constructor].
  - destruct (p c) eqn:Ec.
    + exists (c :: pre). split; [cbn; congruence | constructor; assumption].
    + exists []. split; [reflexivity | constructor].
Qed.

Lemma dropWhile_fixed (p : N -> bool) (s : str) :
  match s with [] => True | c :: _ => p c = false end -> dropWhile p s = s.
Proof. destruct s as [|c s]; cbn [dropWhile]; [auto | intros ->; reflexivity]. Qed.

Lemma dropWhile_app_last (p : N -> bool) (l : str) (c : N) :
  p c = false -> dropWhile p (l ++ [c]) = dropWhile p l ++ [c].
Proof.
  intros Hc. induction l as [|x l IH]; cbn [app dropWhile].
  - rewrite Hc. reflexivity.
  - destruct (p x); [exact IH | reflexivity].
Qed.

Lemma trim_trimmed (s : str) : trimmed (trim s).
Proof.
  unfold trimmed, trim, trimEnd, trimStart. rewrite rev_involutive.
  split; [|apply dropWhile_head].
  pose proof (dropWhile_head isWhiteSpace s) as H.
  destruct (dropWhile isWhiteSpace s) as [|c t]; [exact I|].
  cbn [rev]. rewrite (dropWhile_app_last _ _ _ H), rev_app_distr.
  exact H.
Qed.

Lemma trimmed_trim (s : str) : trimmed s -> trim s = s.
Proof.
  intros [H1 H2]. unfold trim, trimEnd, trimStart.
  rewrite (dropWhile_fixed _ _ H1), (dropWhile_fixed _ _ H2).
  apply rev_involutive.
Qed.

Lemma trim_part (s : str) :
  exists pre suf,
    s = pre ++ trim s ++ suf
    /\ Forall (fun c => isWhiteSpace c = true) pre
    /\ Forall (fun c => isWhiteSpace c = true) suf.
Proof.
  unfold trim, trimEnd, trimStart.
  destruct (dropWhile_split isWhiteSpace s) as (pre & E1 & F1).
  destruct (dropWhile_split isWhiteSpace (rev (dropWhile isWhiteSpace s)))
    as (pre2 & E2 & F2).
  exists pre, (rev pre2). split; [|split; [exact F1 | apply Forall_rev, F2]].
  rewrite <- rev_app_distr, <- E2, rev_involutive. exact E1.
Qed.

Lemma trim_Forall (P : N -> Prop) (s : str) : Forall P s -> Forall P (trim s).
Proof.
  intros H. destruct (trim_part s) as (pre & suf & E & _).
  rewrite E in H. apply Forall_app in H as [_ H].
  apply Forall_app in H as [H _]. exact H.
Qed.

(** [search] finds the leftmost place where the expression matches. *)
Lemma search_spec {A} (at_pos : str -> option A) (s : str) (m : A) :
  search at_pos s = Some m ->
  exists pre suf,
    s = pre ++ suf
    /\ at_pos suf = Some m
    /\ forall i, (i < List.length pre)%nat -> at_pos (skipn i s) = None.
Proof.
  induction s as [|c s IH]; cbn [search].
  - destruct (at_pos []) eqn:E; [|discriminate].
    intros H; inversion H; subst. exists [], []. repeat split; auto.
    intros i Hi; inversion Hi.
  - destruct (at_pos (c :: s)) eqn:E.
    + intros H; inversion H; subst. exists [], (c :: s). repeat split; auto.
      intros i Hi; inversion Hi.
    + intros H. destruct (IH H) as (pre & suf & -> & Hm & Hn).
      exists (c :: pre), suf. repeat split; auto.
      intros [|i] Hi; [exact E|]. cbn [skipn]. apply Hn.
      cbn [List.length] in Hi. lia.
Qed.

Lemma search_None {A} (at_pos : str -> option A) (s : str) :
  search at_pos s = None -> forall i, at_pos (skipn i s) = None.
Proof.
  induction s as [|c s IH]; cbn [search].
  - destruct (at_pos []) eqn:E; [discriminate|]. intros _ [|i]; exact E.
  - destruct (at_pos (c :: s)) eqn:E; [discriminate|].
    intros H [|i]; [exact E | apply IH, H].
Qed.

Lemma includes_spec (s p : str) : includes s p = true <-> substring_of p s.
Proof.
  split.
  - induction s as [|c s IH]; cbn [includes]; rewrite orb_true_iff.
    + intros [H | H]; [|discriminate].
      apply startsWith_split in H as [r ->]. exists [], r. reflexivity.
    + intros [H | H].
      * apply startsWith_split in H as [r ->]. exists [], r. reflexivity.
      * destruct (IH H) as (pre & suf & ->). exists (c :: pre), suf. reflexivity.
  - intros (pre & suf & ->). induction pre as [|c pre IH].
    + cbn [app]. destruct (p ++ suf) eqn:E; cbn [includes];
        rewrite <- E, startsWith_app; reflexivity.
    + cbn [app includes]. rewrite IH. apply orb_true_r.
Qed.

Lemma includes_empty (s : str) : includes s [] = true.
Proof. apply includes_spec. exists [], s. reflexivity. Qed.

Lemma substring_of_trans (a b c : str) :
  substring_of a b -> substring_of b c -> substring_of a c.
Proof.
  intros (p1 & s1 & ->) (p2 & s2 & ->).
  exists (p2 ++ p1), (s1 ++ s2). rewrite <- !app_assoc. reflexivity.
Qed.

Lemma startsWith_nil (s : str) : startsWith s [] = true.
Proof. destruct s; reflexivity. Qed.

(** Splitting at a one-character separator is splitting at its class. *)
Lemma split_single (d : N) (s : str) :
  forall cur, split_go [d] s cur 0 = split_class_go (N.eqb d) s cur.
Proof.
  induction s as [|c s IH]; intros cur; [reflexivity|].
  cbn [split_go split_class_go startsWith].
  rewrite startsWith_nil, andb_true_r. destruct (N.eqb d c); cbn [List.length Nat.sub];
    rewrite IH; reflexivity.
Qed.

Lemma split_class_nonempty (p : N -> bool) (s : str) :
  forall cur, split_class_go p s cur <> [].
Proof.
  induction s as [|c s IH]; intros cur; cbn [split_class_go]; [discriminate|].
  destruct (p c); [discriminate | apply IH].
Qed.

Lemma split_class_pieces (p : N -> bool) (s : str) :
  forall cur,
    Forall (fun c => p c = false) cur ->
    Forall (Forall (fun c => p c = false)) (split_class_go p s cur).
Proof.
  induction s as [|c s IH]; intros cur Hc; cbn [split_class_go].
  - constructor; [apply Forall_rev, Hc | constructor].
  - destruct (p c) eqn:E.
    + constructor; [apply Forall_rev, Hc | apply IH; constructor].
    + apply IH. constructor; assumption.
Qed.

Lemma split_class_pass (p : N -> bool) (x s : str) :
  Forall (fun c => p c = false) x ->
  forall cur, split_class_go p (x ++ s) cur = split_class_go p s (rev x ++ cur).
Proof.
  induction 1 as [|c x Hc Hx IH]; intros cur; [reflexivity|].
  cbn [app split_class_go rev]. rewrite Hc, IH, <- app_assoc. reflexivity.
Qed.

Lemma join_cons (sep x y : str) (l : list str) :
  join sep (x :: y :: l) = x ++ sep ++ join sep (y :: l).
Proof. reflexivity. Qed.

Lemma join_app (sep : str) (l1 l2 : list str) :
  l1 <> [] -> l2 <> [] ->
  join sep (l1 ++ l2) = join sep l1 ++ sep ++ join sep l2.
Proof.
  intros H1 H2. induction l1 as [|x l1 IH]; [congruence|].
  destruct l1 as [|y l1].
  - destruct l2 as [|z l2]; [congruence | reflexivity].
  - change ((x :: y :: l1) ++ l2) with (x :: y :: (l1 ++ l2)).
    rewrite !join_cons. change (y :: l1 ++ l2) with ((y :: l1) ++ l2).
    rewrite IH by discriminate. rewrite <- !app_assoc. reflexivity.
Qed.

(** Pieces that hold no separator, once joined, split back into
    themselves. *)
Lemma split_join (d : N) (l : list str) :
  l <> [] ->
  Forall (Forall (fun c => N.eqb d c = false)) l ->
  split (join [d] l) [d] = l.
Proof.
  intros Hl Hf. unfold split. rewrite split_single.
  assert (G : forall cur,
             split_class_go (N.eqb d) (join [d] l) cur
             = match l with
               | [] => [rev cur]
               | x :: r => (rev cur ++ x) :: r
               end).
  { clear Hl. induction Hf as [|x r Hx Hr IH]; intros cur; [reflexivity|].
    destruct r as [|y r].
    - cbn [join]. rewrite <- (app_nil_r x) at 1.
      rewrite split_class_pass by exact Hx. cbn [split_class_go].
      rewrite rev_app_distr, rev_involutive. reflexivity.
    - rewrite join_cons, split_class_pass by exact Hx.
      cbn [app split_class_go]. rewrite N.eqb_refl.
      rewrite rev_app_distr, rev_involutive. f_equal.
      rewrite IH. reflexivity. }
  rewrite G. destruct l; [congruence | reflexivity].
Qed.

End MoreStringFacts.

(* ================================================================== *)
(** * Metadata extraction *)
(* ================================================================== *)

Section MetadataFacts.

Import DiaryParser.





Lemma takeWhile_Forall (p : N -> bool) (s : str) :
  Forall (fun c => p c = true) (takeWhile p s).
Proof.
  induction s as [|c s IH]; cbn [takeWhile]; [constructor|].
  destruct (p c) eqn:E; constructor; assumption.
Qed.


Ltac split_const p :=
  repeat first [reflexivity | congruence | destruct p as [p|p|]].

Lemma hash_word_eq (c : N) (r : str) :
  hash_word (c :: r)
  = if N.eqb c 35
    then match takeWhile isTagChar r with
         | [] => None
         | w => Some (35%N :: w)
         end
    else None.
Proof.
  destruct (N.eqb_spec c 35) as [-> | Hc]; [reflexivity|].
  unfold hash_word. destruct c as [|p]; [reflexivity|]. split_const p.
Qed.

Lemma titleRegex_at_eq (c : N) (r : str) :
  titleRegex_at (c :: r) = if N.eqb c 35 then spaces_then_line r else None.
Proof.
  destruct (N.eqb_spec c 35) as [-> | Hc]; [reflexivity|].
  unfold titleRegex_at. destruct c as [|p]; [reflexivity|]. split_const p.
Qed.

Lemma hash_word_shape (s m : str) :
  hash_word s = Some m ->
  exists w, w <> [] /\ Forall (fun c => isTagChar c = true) w /\ m = 35%N :: w.
Proof.
  destruct s as [|c r]; [discriminate|]. rewrite hash_word_eq.
  destruct (N.eqb c 35); [|discriminate].
  pose proof (takeWhile_Forall isTagChar r) as F.
  destruct (takeWhile isTagChar r) as [|x w]; [discriminate|].
  intros H; inversion H; subst. exists (x :: w).
  split; [discriminate | split; [exact F | reflexivity]].
Qed.

Lemma tagRegex_at_shape (s m : str) (b : bool) :
  tagRegex_at s b = Some m -> exists w, tag_match m w.
Proof.
  unfold tagRegex_at.
  destruct (if b then hash_word s else None) as [m0|] eqn:E.
  - intros H; inversion H; subst m0. destruct b; [|discriminate].
    destruct (hash_word_shape _ _ E) as (w & Hw & Hf & ->).
    exists w. split; [exact Hw | split; [exact Hf | left; reflexivity]].
  - destruct s as [|c r]; [discriminate|].
    destruct (isWhiteSpace c) eqn:Ec; [|discriminate].
    destruct (hash_word r) as [m1|] eqn:E1; [|discriminate].
    intros H; inversion H; subst m.
    destruct (hash_word_shape _ _ E1) as (w & Hw & Hf & ->).
    exists w. split; [exact Hw | split; [exact Hf|]].
    right. exists c. split; [exact Ec | reflexivity].
Qed.

Lemma tagRegex_all_shape (s : str) :
  forall (b : bool) (skip : nat),
    Forall (fun m => exists w, tag_match m w) (tagRegex_all s b skip).
Proof.
  induction s as [|c s IH]; intros b skip; cbn [tagRegex_all]; [constructor|].
  destruct skip as [|k]; [|apply IH].
  destruct (tagRegex_at (c :: s) b) as [m|] eqn:E; [|apply IH].
  constructor; [eapply tagRegex_at_shape, E | apply IH].
Qed.

Lemma tagChar_facts (c : N) :
  isTagChar c = true -> isWhiteSpace c = false /\ c <> 35%N.
Proof.
  unfold isTagChar. rewrite negb_true_iff, orb_false_iff, N.eqb_neq. tauto.
Qed.

Lemma trim_cons_space (c : N) (s : str) :
  isWhiteSpace c = true -> trim (c :: s) = trim s.
Proof.
  intros H. unfold trim, trimStart. cbn [dropWhile]. rewrite H. reflexivity.
Qed.

(** Trimming a match and removing its hash leaves the word. *)
Lemma tag_of_match (m w : str) :
  tag_match m w -> remove_first 35 (trim m) = w.
Proof.
  intros (Hw & Hf & Hm).
  assert (T : trim (35%N :: w) = 35%N :: w).
  { apply trimmed_trim. split; [reflexivity|].
    cbn [rev]. destruct (rev w) as [|x l] eqn:E.
    - apply (f_equal (@rev _)) in E. rewrite rev_involutive in E.
      cbn in E. congruence.
    - cbn [app]. rewrite Forall_forall in Hf.
      apply (tagChar_facts x), Hf. apply (proj2 (in_rev w x)).
      rewrite E. left; reflexivity. }
  destruct Hm as [-> | (c & Hc & ->)].
  - rewrite T. reflexivity.
  - rewrite (trim_cons_space c _ Hc), T. reflexivity.
Qed.

Lemma spaces_then_line_chars (s cap : str) :
  spaces_then_line s = Some cap ->
  Forall (fun c => isLineTerminator c = false) cap.
Proof.
  assert (R : forall t, rest_of_line t = Some cap ->
                        Forall (fun c => isLineTerminator c = false) cap).
  { intros t. unfold rest_of_line.
    pose proof (takeWhile_Forall (fun c => negb (isLineTerminator c)) t) as F.
    destruct (takeWhile _ t) as [|x l]; [discriminate|].
    intros H; inversion H; subst.
    eapply Forall_impl; [|exact F]. intros a Ha. apply negb_true_iff, Ha. }
  induction s as [|c s IH]; cbn [spaces_then_line]; [discriminate|].
  destruct (isWhiteSpace c); [|discriminate].
  destruct (spaces_then_line s) as [cap'|].
  - intros H; inversion H; subst. apply IH. reflexivity.
  - apply R.
Qed.

Lemma titleRegex_search_chars (s cap : str) :
  forall b, titleRegex_search s b = Some cap ->
            Forall (fun c => isLineTerminator c = false) cap.
Proof.
  induction s as [|c s IH]; intros b; cbn [titleRegex_search]; [discriminate|].
  destruct (if b then titleRegex_at (c :: s) else None) as [cap'|] eqn:E.
  - intros H; inversion H; subst cap'. destruct b; [|discriminate].
    rewrite titleRegex_at_eq in E. destruct (N.eqb c 35); [|discriminate].
    eapply spaces_then_line_chars, E.
  - apply IH.
Qed.

Example metadata_of_entry :
  extractMetadata
    (js "# 周一 的记录  " ++ [10%N] ++ js "今天 #工作 很忙 #学习#复习 心情： 04 分")
  = mkMetadata (Some (js "周一 的记录"))
               (Some [js "工作"; js "学习"])
               (Some 4).
Proof. reflexivity. Qed.


(** X2.  A title in the metadata neither starts nor ends with white space
    and holds no line terminator: it lies within one line of the text. *)
Theorem extractMetadata_title_trimmed (text : str) :
  match title (extractMetadata text) with
  | Some t => trimmed t /\ Forall (fun c => isLineTerminator c = false) t
  | None => True
  end.
Proof.
  unfold extractMetadata. cbn [title].
  destruct (titleRegex_search text true) as [cap|] eqn:E; [|exact I].
  split; [apply trim_trimmed|].
  apply trim_Forall. eapply titleRegex_search_chars, E.
Qed.

(** X3.  When the metadata have tags there is at least one, and every tag
    is a non-empty word without white space and without [#]. *)
Theorem extractMetadata_tags_words (text : str) :
  match tags (extractMetadata text) with
  | Some ts =>
    ts <> []
    /\ Forall (fun t => t <> []
                        /\ Forall (fun c => isWhiteSpace c = false /\ c <> 35%N) t)
              ts
  | None => True
  end.
Proof.
  unfold extractMetadata. cbn [tags].
  pose proof (tagRegex_all_shape text true 0) as F.
  destruct (tagRegex_all text true 0) as [|m ms]; [exact I|].
  split; [discriminate|].
  rewrite Forall_map. eapply Forall_impl; [|exact F].
  intros x (w & Hm). rewrite (tag_of_match _ _ Hm).
  destruct Hm as (Hw & Hf & _). split; [exact Hw|].
  eapply Forall_impl; [|exact Hf]. intros c. apply tagChar_facts.
Qed.

End MetadataFacts.

(* ================================================================== *)
(** * Parsing files *)
(* ================================================================== *)

Section ParsingFiles.

Import DiaryParser.

Variable moment : str -> str -> option Date.
Variable read : TFile -> result str.
Variable clock : nat -> Date.

Lemma parseMultipleDiaries_from_facts (self : t) (files : list TFile) :
  forall index,
    let records := parseMultipleDiaries_from moment read clock self files index in
    Forall parsed records
    /\ map content records
       = flat_map (fun file => match read file with
                               | Ok text => [text]
                               | Throw _ => []
                               end) files
    /\ (List.length records <= List.length files)%nat.
Proof.
  induction files as [|file rest IH]; intros index.
  - cbn. repeat split; auto.
  - cbn [parseMultipleDiaries_from flat_map List.length].
    destruct (IH (S index)) as (Hp & Hc & Hl).
    unfold parseDiaryFile. destruct (read file) as [text|e]; cbn [bind].
    + cbn [map app List.length]. split; [|split].
      * constructor; [reflexivity | exact Hp].
      * cbn [content parseDiaryContent]. f_equal. exact Hc.
      * lia.
    + cbn [app]. split; [exact Hp | split; [exact Hc | lia]].
Qed.

(** X4.  Batch parsing never fails: it returns one record for each file
    whose read succeeds, in the order of the files, with that file's text
    as content and the metadata extracted from that text; files whose read
    is rejected are passed over. *)
Theorem parseMultipleDiaries_readable (self : t) (files : list TFile) :
  let records := parseMultipleDiaries moment read clock self files in
  Forall parsed records
  /\ map content records
     = flat_map (fun file => match read file with
                             | Ok text => [text]
                             | Throw _ => []
                             end) files
  /\ (List.length records <= List.length files)%nat
  /\ ((forall file, In file files -> exists text, read file = Ok text) ->
      List.length records = List.length files).
Proof.
  intros records.
  destruct (parseMultipleDiaries_from_facts self files 0) as (Hp & Hc & Hl).
  fold (parseMultipleDiaries moment read clock self files) in Hp, Hc, Hl.
  fold records in Hp, Hc, Hl.
  split; [exact Hp|]. split; [exact Hc|]. split; [exact Hl|].
  intros Hall. rewrite <- (length_map content), Hc.
  clear Hp Hc Hl records. induction files as [|file rest IH]; [reflexivity|].
  cbn [flat_map]. rewrite length_app.
  destruct (Hall file (or_introl eq_refl)) as [text ->].
  cbn [List.length]. rewrite IH; [reflexivity|].
  intros f Hf. apply Hall. right; exact Hf.
Qed.

(** X5.  The guarded version of [extractDateInfo] gives the same date as
    the first one for every non-empty file name, and for the empty file
    name as well when the parser rejects the empty string. *)
Theorem extractDateInfo2_agrees (self : t) (fileName body : str) (now : Date) :
  fileName <> [] \/ moment [] (dateFormat self) = None ->
  extractDateInfo2 moment self fileName body now
  = extractDateInfo moment self fileName body now.
Proof.
  intros H. unfold extractDateInfo2, extractDateInfo.
  assert (E : (if truthy fileName
               then moment (nth 0 (split fileName (js ".")) []) (dateFormat self)
               else None)
              = moment (nth 0 (split fileName (js ".")) []) (dateFormat self)).
  { destruct fileName as [|c f]; [|reflexivity].
    destruct H as [H | H]; [congruence|]. cbn. symmetry. exact H. }
  rewrite E.
  destruct (moment (nth 0 (split fileName (js ".")) []) (dateFormat self));
    [reflexivity|].
  destruct body as [|c b]; [reflexivity|]. cbn [truthy].
  destruct (search dateRegex_at (c :: b)) as [m|]; [|reflexivity].
  destruct (moment m (js "YYYY-MM-DD")); reflexivity.
Qed.

Lemma dateRegex_at_shape (s m : str) :
  dateRegex_at s = Some m ->
  List.length m = 10%nat /\ dateRegex_at m = Some m /\ exists r, s = m ++ r.
Proof.
  unfold dateRegex_at at 1.
  destruct s as [|y1 [|y2 [|y3 [|y4 [|s1 [|m1 [|m2 [|s2 [|d1 [|d2 r]]]]]]]]]];
    try discriminate.
  destruct (isDigit y1 && isDigit y2 && isDigit y3 && isDigit y4
            && isDateSep s1 && isDigit m1 && isDigit m2
            && isDateSep s2 && isDigit d1 && isDigit d2) eqn:E; [|discriminate].
  intros H; inversion H; subst m.
  split; [reflexivity|]. split; [|exists r; reflexivity].
  unfold dateRegex_at. rewrite E. reflexivity.
Qed.

(** X6.  What the body fallback hands to the parser is the leftmost place
    of the body where four digits, a separator ([-] or [/]), two digits, a
    separator and two digits stand in a row: ten code units of the body,
    with no such place before it. *)
Theorem body_date_leftmost (body m : str) :
  search dateRegex_at body = Some m ->
  exists pre suf,
    body = pre ++ m ++ suf
    /\ List.length m = 10%nat
    /\ dateRegex_at m = Some m
    /\ forall i, (i < List.length pre)%nat -> dateRegex_at (skipn i body) = None.
Proof.
  intros H. destruct (search_spec _ _ _ H) as (pre & suf & -> & Hm & Hn).
  destruct (dateRegex_at_shape _ _ Hm) as (Hl & Hs & r & ->).
  exists pre, r. repeat split; auto.
Qed.

End ParsingFiles.

Lemma parseMultipleDiaries_readable_witness :
  let files := [DiaryParser.mkFile (js "diary/a.md") (js "a.md") (js "a") (js "md");
                DiaryParser.mkFile (js "diary/b.md") (js "b.md") (js "b") (js "md")] in
  let read := fun _ : DiaryParser.TFile => Ok (js "心情：4") in
  let records :=
    DiaryParser.parseMultipleDiaries
      (fun _ _ => None) read (fun _ => utcDay 2024 1 15)
      (DiaryParser.mk (js "diary") (js "YYYY-MM-DD")) files in
  (forall file, In file files -> exists text, read file = Ok text)
  /\ List.length records = List.length files.
Proof.
  intros files read records.
  assert (H : forall file, In file files -> exists text, read file = Ok text)
    by (intros file _; exists (js "心情：4"); reflexivity).
  split; [exact H|].
  exact (proj2 (proj2 (proj2
           (parseMultipleDiaries_readable
              (fun _ _ => None) read (fun _ => utcDay 2024 1 15)
              (DiaryParser.mk (js "diary") (js "YYYY-MM-DD")) files))) H).
Defined.

Lemma extractDateInfo2_agrees_witness :
  let moment := fun (s _ : str) =>
                  if eqb s (js "2024-01-15") then Some (utcDay 2024 1 15) else None in
  let self := DiaryParser.mk (js "diary") (js "YYYY-MM-DD") in
  (js "2024-01-15.md" <> [] \/ moment [] (DiaryParser.dateFormat self) = None)
  /\ DiaryParser.extractDateInfo2 moment self (js "2024-01-15.md") [] (utcDay 2030 1 1)
     = DiaryParser.extractDateInfo moment self (js "2024-01-15.md") [] (utcDay 2030 1 1).
Proof.
  intros moment self.
  assert (H : js "2024-01-15.md" <> [] \/ moment [] (DiaryParser.dateFormat self) = None)
    by (right; vm_compute; reflexivity).
  split; [exact H|].
  exact (extractDateInfo2_agrees moment self (js "2024-01-15.md") []
                                 (utcDay 2030 1 1) H).
Defined.

Lemma body_date_leftmost_witness :
  let body := js "on 12024/01-15 and 2024-02-01" in
  let m := js "2024/01-15" in
  search DiaryParser.dateRegex_at body = Some m
  /\ exists pre suf,
      body = pre ++ m ++ suf
      /\ List.length m = 10%nat
      /\ DiaryParser.dateRegex_at m = Some m
      /\ forall i, (i < List.length pre)%nat ->
                   DiaryParser.dateRegex_at (skipn i body) = None.
Proof.
  intros body m.
  assert (H : search DiaryParser.dateRegex_at body = Some m)
    by (vm_compute; reflexivity).
  split; [exact H|].
  exact (body_date_leftmost body m H).
Defined.


(* ================================================================== *)
(** * The analyzer as a whole *)
(* ================================================================== *)

Section AnalyzerFacts.

Import ContentAnalyzer.

Lemma dictionary_range (text : str) : 1 <= analyzeMoodWithDictionary text <= 5.
Proof.
  unfold analyzeMoodWithDictionary.
  set (p := countWords positiveWords text).
  set (n := countWords negativeWords text).
  destruct (Z.gtb_spec p n); [lia|].
  destruct (Z.gtb_spec n p); lia.
Qed.

Lemma inRange_true (n : Z) : inRange n = true <-> 1 <= n <= 5.
Proof. unfold inRange. rewrite andb_true_iff, !Z.leb_le. tauto. Qed.

Lemma askService_backend (self : t) (prompt : str) :
  askService self prompt
  = match backend self with
    | Some s => complete s prompt
    | None => Throw noService
    end.
Proof.
  unfold askService, backend.
  destruct (openAI self); [reflexivity|]. destruct (ollama self); reflexivity.
Qed.

Lemma analyzeMoodWithAI_ask (self : t) (text : str) :
  analyzeMoodWithAI self text
  = bind (askService self (moodPrompt text))
         (fun response =>
            Ok (match parseInt response with
                | Some score => if inRange score then score else 3
                | None => 3
                end)).
Proof.
  unfold analyzeMoodWithAI, askService.
  destruct (openAI self); [reflexivity|]. destruct (ollama self); reflexivity.
Qed.

Lemma extractKeywords_backend (self : t) (text : str) :
  extractKeywords self text
  = match backend self with
    | Some s =>
      bind (complete s (keywordsPrompt self text)) (fun response =>
        Ok (slice0 (map trim (split response (js ","))) (maxKeywords self)))
    | None => Ok (extractKeywordsWithFrequency self text)
    end.
Proof.
  unfold extractKeywords, extractKeywordsWithAI, backend.
  destruct (openAI self); [reflexivity|]. destruct (ollama self); reflexivity.
Qed.

Example mood_service_answer_clamped :
  analyzeMoodScore (mk None (Some (mkService (fun _ => Ok (js " 7 分")))) 5)
                   (js "开心开心")
  = Ok 3.
Proof. reflexivity. Qed.

Lemma analyzeMoodScore_range_aux (self : t) (text : str) :
  match analyzeMoodScore self text with
  | Ok n => 1 <= n <= 5
  | Throw _ => hasService self = true
  end.
Proof.
  unfold analyzeMoodScore.
  set (explicit := match search DiaryParser.moodRegex_at text with
                   | Some cap =>
                     match parseInt cap with
                     | Some mood => if inRange mood then Some mood else None
                     | None => None
                     end
                   | None => None
                   end).
  assert (He : forall n, explicit = Some n -> 1 <= n <= 5).
  { unfold explicit. intros n.
    destruct (search DiaryParser.moodRegex_at text) as [cap|]; [|discriminate].
    destruct (parseInt cap) as [m|]; [|discriminate].
    destruct (inRange m) eqn:E; [|discriminate].
    intros H; inversion H; subst. apply inRange_true, E. }
  destruct explicit as [n|]; [apply He; reflexivity|].
  destruct (hasService self) eqn:Hs; [|apply dictionary_range].
  rewrite analyzeMoodWithAI_ask.
  destruct (askService self (moodPrompt text)) as [response|e]; cbn [bind];
    [|reflexivity].
  destruct (parseInt response) as [score|]; [|lia].
  destruct (inRange score) eqn:E; [apply inRange_true, E | lia].
Qed.

(** X7.  In every configuration a mood score that [analyzeMoodScore]
    returns lies in [1, 5], and the call can only throw when a service is
    configured. *)
Theorem analyzeMoodScore_range (self : t) (text : str) :
  match analyzeMoodScore self text with
  | Ok n => 1 <= n <= 5
  | Throw _ => hasService self = true
  end.
Proof. apply analyzeMoodScore_range_aux. Qed.

Lemma comma_free_pieces (response : str) :
  Forall (Forall (fun c => N.eqb 44 c = false)) (split response (js ",")).
Proof.
  unfold split. change (js ",") with [44%N]. rewrite split_single.
  apply split_class_pieces. constructor.
Qed.

Lemma split_comma_nonempty (response : str) : split response (js ",") <> [].
Proof.
  unfold split. change (js ",") with [44%N]. rewrite split_single.
  apply split_class_nonempty.
Qed.

Lemma trimmed_pieces (pieces : list str) :
  Forall (Forall (fun c => N.eqb 44 c = false)) pieces ->
  Forall (fun k => trimmed k /\ ~ In 44%N k) (map trim pieces).
Proof.
  intros H. rewrite Forall_map. eapply Forall_impl; [|exact H].
  intros piece Hp. split; [apply trim_trimmed|].
  apply (trim_Forall _ _) in Hp. rewrite Forall_forall in Hp.
  intros Hin. specialize (Hp _ Hin). rewrite N.eqb_refl in Hp. discriminate.
Qed.

Lemma Forall_firstn_keep {A} (P : A -> Prop) (n : nat) (l : list A) :
  Forall P l -> Forall P (firstn n l).
Proof.
  intros H. revert n. induction H as [|x l Hx Hl IH]; intros [|n]; cbn [firstn];
    constructor; auto.
Qed.

(** X8.  With a service configured that answers the keyword prompt, and
    [maxKeywords >= 0], the keywords are the first [maxKeywords] pieces of
    the answer between commas, each trimmed: never more than
    [maxKeywords], at least one when [maxKeywords >= 1], none of them
    holding a comma or starting or ending with white space. *)
Theorem extractKeywords_with_service
        (self : t) (text : str) (service : AIService) (response : str) :
  backend self = Some service ->
  complete service (keywordsPrompt self text) = Ok response ->
  0 <= maxKeywords self ->
  exists ks,
    extractKeywords self text = Ok ks
    /\ ks = firstn (Z.to_nat (maxKeywords self))
                   (map trim (split response (js ",")))
    /\ Z.of_nat (List.length ks) <= maxKeywords self
    /\ (1 <= maxKeywords self -> ks <> [])
    /\ Forall (fun k => trimmed k /\ ~ In 44%N k) ks.
Proof.
  intros Hb Hc Hm. rewrite extractKeywords_backend, Hb, Hc. cbn [bind].
  rewrite slice0_firstn by exact Hm.
  eexists. split; [reflexivity|]. split; [reflexivity|]. split; [|split].
  - rewrite length_firstn. lia.
  - intros H1. pose proof (split_comma_nonempty response) as Hne.
    destruct (split response (js ",")) as [|x l]; [congruence|].
    destruct (Z.to_nat (maxKeywords self)) eqn:E; [lia|]. discriminate.
  - apply Forall_firstn_keep, trimmed_pieces, comma_free_pieces.
Qed.

Lemma map_trim_id (l : list str) :
  Forall (fun a => trimmed a /\ ~ In 44%N a) l -> map trim l = l.
Proof.
  induction 1 as [|a l [Ha _] Hl IH]; cbn [map]; [reflexivity|].
  rewrite (trimmed_trim _ Ha), IH. reflexivity.
Qed.

Lemma split_join_commas (l : list str) :
  l <> [] -> Forall (fun a => trimmed a /\ ~ In 44%N a) l ->
  split (join (js ",") l) (js ",") = l.
Proof.
  intros Hl Hf. change (js ",") with [44%N]. apply split_join; [exact Hl|].
  eapply Forall_impl; [|exact Hf]. intros a [_ Ha].
  rewrite Forall_forall. intros c Hc. apply N.eqb_neq. intros <-. auto.
Qed.

(** X9.  A service answer that lists items separated by commas, the items
    free of commas and of white space at their ends, is read back exactly:
    as the activities, and (when there are no more than [maxKeywords] of
    them) as the keywords. *)
Theorem service_answer_read_back
        (self : t) (text : str) (service : AIService) (l : list str) :
  backend self = Some service ->
  l <> [] ->
  Forall (fun a => trimmed a /\ ~ In 44%N a) l ->
  (complete service (activitiesPrompt text) = Ok (join (js ",") l) ->
   extractActivities self text = Ok l)
  /\ (complete service (keywordsPrompt self text) = Ok (join (js ",") l) ->
      Z.of_nat (List.length l) <= maxKeywords self ->
      extractKeywords self text = Ok l).
Proof.
  intros Hb Hl Hf. split.
  - intros Hc. unfold extractActivities, extractActivitiesWithAI.
    rewrite hasService_backend, askService_backend, Hb, Hc. cbn [bind].
    rewrite (split_join_commas _ Hl Hf), (map_trim_id _ Hf). reflexivity.
  - intros Hc Hm. rewrite extractKeywords_backend, Hb, Hc. cbn [bind].
    rewrite (split_join_commas _ Hl Hf), (map_trim_id _ Hf).
    rewrite slice0_firstn by lia. rewrite firstn_all2 by lia. reflexivity.
Qed.

Lemma NoDup_firstn_keep {A} (n : nat) (l : list A) :
  NoDup l -> NoDup (firstn n l).
Proof.
  intros H. revert n. induction H as [|x l Hx Hl IH]; intros [|n]; cbn [firstn];
    constructor; auto.
  intros Hin. apply Hx. revert Hin. clear. revert n.
  induction l as [|y l IH]; intros [|n]; cbn [firstn In]; try tauto.
  intros [H | H]; [left; exact H | right; eapply IH, H].
Qed.

Lemma frequency_keywords_facts (self : t) (text : str) :
  0 <= maxKeywords self ->
  extractKeywordsWithFrequency self text
  = firstn (Z.to_nat (maxKeywords self))
           (map fst (sort TimelineGenerator.byCountDesc
                          (fold_left TimelineGenerator.countKeyword
                                     (tokens text) [])))
  /\ NoDup (extractKeywordsWithFrequency self text)
  /\ Z.of_nat (List.length (extractKeywordsWithFrequency self text))
     = Z.min (maxKeywords self)
             (Z.of_nat (List.length (set_of_array (tokens text)))).
Proof.
  intros Hm.
  assert (E : extractKeywordsWithFrequency self text
              = firstn (Z.to_nat (maxKeywords self))
                       (map fst (sort TimelineGenerator.byCountDesc
                                      (fold_left TimelineGenerator.countKeyword
                                                 (tokens text) [])))).
  { unfold extractKeywordsWithFrequency.
    rewrite countWord_filter, slice0_firstn by exact Hm.
    rewrite firstn_map. reflexivity. }
  destruct (ranking_facts (tokens text)) as (Hnd & _ & _).
  split; [exact E|]. split.
  - rewrite E. apply NoDup_firstn_keep, Hnd.
  - rewrite E, length_firstn, length_map.
    rewrite (Permutation_length (sort_perm _ _)).
    rewrite <- (length_map fst), count_all_keys. cbn [map].
    fold (set_of_array (tokens text)). lia.
Qed.

Example keywords_fewer_than_max :
  extractKeywordsWithFrequency (mk None None 5) (js "读书 a 读书 跑步 b")
  = [js "读书"; js "跑步"].
Proof. reflexivity. Qed.

(** X10.  For [maxKeywords >= 0] the heuristic returns exactly
    [min(maxKeywords, d)] keywords, [d] being the number of distinct tokens
    of the text, and no keyword twice. *)
Theorem extractKeywordsWithFrequency_count (self : t) (text : str) :
  0 <= maxKeywords self ->
  Z.of_nat (List.length (extractKeywordsWithFrequency self text))
  = Z.min (maxKeywords self)
          (Z.of_nat (List.length (set_of_array (tokens text))))
  /\ NoDup (extractKeywordsWithFrequency self text).
Proof.
  intros Hm. destruct (frequency_keywords_facts self text Hm) as (_ & Hn & Hl).
  split; assumption.
Qed.

Lemma summary_length (text : str) : Js.length (generateSimpleSummary text) <= 103.
Proof.
  unfold generateSimpleSummary.
  destruct (Js.length (nth 0 (split text [10%N; 10%N]) []) <=? 100) eqn:E.
  - apply Z.leb_le in E. lia.
  - unfold Js.length, substring0. rewrite length_app, length_firstn.
    change (List.length (js "...")) with 3%nat. lia.
Qed.

(** X11.  With no service configured and [maxKeywords >= 0], [analyze]
    never throws: it returns the four heuristic results, which form a
    well-formed analysis (mood in [1, 5], at most [maxKeywords] keywords
    without repetition, a summary of at most 103 code units, activities
    without repetition). *)
Theorem analyze_heuristic (self : t) (diary : DiaryContent) :
  openAI self = None -> ollama self = None -> 0 <= maxKeywords self ->
  exists a,
    analyze self diary = Ok a
    /\ ar_keywords a = extractKeywordsWithFrequency self (content diary)
    /\ ar_summary a = generateSimpleSummary (content diary)
    /\ ar_activities a = extractActivitiesWithRules (content diary)
    /\ analyzeMoodScore self (content diary) = Ok (ar_moodScore a)
    /\ wellFormed (maxKeywords self) a.
Proof.
  intros H1 H2 Hm.
  assert (Hs : hasService self = false) by (unfold hasService; rewrite H1, H2; reflexivity).
  pose proof (analyzeMoodScore_range_aux self (content diary)) as Hr.
  unfold analyze, extractKeywords, extractActivities, generateSummary.
  rewrite H1, H2, Hs. cbn [bind].
  destruct (analyzeMoodScore self (content diary)) as [n|e] eqn:En.
  - cbn [bind]. eexists. split; [reflexivity|].
    cbn [ar_keywords ar_summary ar_activities ar_moodScore].
    repeat (split; [reflexivity|]).
    destruct (frequency_keywords_facts self (content diary) Hm) as (_ & Hn & Hl).
    unfold wellFormed.
    cbn [ar_keywords ar_summary ar_activities ar_moodScore].
    split; [exact Hr|]. split; [rewrite Hl; lia|]. split; [exact Hn|].
    split; [apply summary_length|].
    apply set_of_array_facts.
  - rewrite Hs in Hr. discriminate.
Qed.

(** X12.  When a service is configured and rejects the keyword prompt,
    [analyze] throws: it does not fall back on the heuristics. *)
Theorem analyze_no_fallback
        (self : t) (diary : DiaryContent) (service : AIService) (e : exn) :
  backend self = Some service ->
  complete service (keywordsPrompt self (content diary)) = Throw e ->
  exists e', analyze self diary = Throw e'.
Proof.
  intros Hb Hc. unfold analyze.
  rewrite extractKeywords_backend, Hb, Hc. cbn [bind]. eexists; reflexivity.
Qed.

End AnalyzerFacts.

Section SummaryAndActivities.

Import ContentAnalyzer.

Lemma skipn_at_prefix {A} (pre rest : list A) :
  skipn (List.length pre) (pre ++ rest) = rest.
Proof. induction pre as [|x pre IH]; cbn; auto. Qed.

Lemma break_before_dots (x pre suf : str) :
  pre ++ [10; 10]%N ++ suf = x ++ js "..." ->
  exists suf', x = pre ++ [10; 10]%N ++ suf'.
Proof.
  change (js "...") with [46; 46; 46]%N.
  revert pre. induction x as [|c x IH]; intros pre E.
  - exfalso. destruct pre as [|a [|b [|d pre]]]; cbn in E; inversion E.
    destruct pre; discriminate.
  - destruct pre as [|a pre].
    + cbn [app] in E. inversion E; subst c.
      destruct x as [|d x]; cbn [app] in *; [inversion H1|].
      inversion H1; subst. exists x. reflexivity.
    + cbn [app] in E. inversion E; subst.
      destruct (IH pre H1) as [suf' ->]. exists suf'. reflexivity.
Qed.

Example summary_truncated :
  Js.length (generateSimpleSummary (List.concat (repeat (js "日记") 60))) = 103.
Proof. reflexivity. Qed.

(** X13.  The heuristic summary never holds a paragraph break, and a text
    without a paragraph break and of at most 100 code units is its own
    summary. *)
Theorem generateSimpleSummary_no_break (text : str) :
  includes (generateSimpleSummary text) [10; 10]%N = false
  /\ (includes text [10; 10]%N = false -> Js.length text <= 100 ->
      generateSimpleSummary text = text).
Proof.
  destruct (split_go_first [10; 10]%N text []) as (fp & rest & Ht & Hn & Hr & Hno).
  cbn [rev app] in Hn.
  assert (Hfp : forall pre suf, fp <> pre ++ [10; 10]%N ++ suf).
  { intros pre suf E. apply (Hno (List.length pre)).
    - rewrite E, length_app. cbn [List.length app]. lia.
    - unfold occurs_at. rewrite Ht, E, <- !app_assoc, skipn_at_prefix.
      apply startsWith_app. }
  unfold generateSimpleSummary, split. rewrite Hn. split.
  - destruct (Js.length fp <=? 100).
    + destruct (includes fp [10; 10]%N) eqn:E; [|reflexivity].
      apply includes_spec in E as (pre & suf & E). exfalso. eapply Hfp, E.
    + destruct (includes (substring0 fp 100 ++ js "...") [10; 10]%N) eqn:E;
        [|reflexivity].
      apply includes_spec in E as (pre & suf & E). symmetry in E.
      apply break_before_dots in E as [suf' E]. exfalso.
      apply (Hfp pre (suf' ++ skipn 100 fp)).
      rewrite <- (firstn_skipn 100 fp) at 1. unfold substring0 in E.
      change (Z.to_nat 100) with 100%nat in E. rewrite E, <- !app_assoc.
      reflexivity.
  - intros Hni Hl.
    assert (rest = []).
    { destruct Hr as [Hr | Hr]; [exact Hr|]. exfalso.
      apply startsWith_split in Hr as [r ->].
      assert (I : includes text [10; 10]%N = true)
        by (apply includes_spec; exists fp, r; exact Ht).
      congruence. }
    subst rest. rewrite app_nil_r in Ht. subst fp.
    apply Z.leb_le in Hl. rewrite Hl. reflexivity.
Qed.

Lemma markerRegex_capture (marker s cap : str) :
  markerRegex_at marker s = Some cap ->
  Forall (fun c => isPhraseChar c = true) cap.
Proof.
  unfold markerRegex_at. destruct (startsWith s marker); [|discriminate].
  pose proof (takeWhile_Forall isPhraseChar (skipn (List.length marker) s)) as F.
  destruct (takeWhile isPhraseChar _) as [|x l]; [discriminate|].
  intros H; inversion H; subst. exact F.
Qed.

(** X14.  Every activity that the rules extract is free of the clause
    punctuation and of white space at its ends. *)
Theorem extractActivitiesWithRules_phrases (text : str) :
  Forall (fun a => trimmed a /\ Forall (fun c => isPhraseChar c = true) a)
         (extractActivitiesWithRules text).
Proof.
  apply Forall_forall. intros a Ha.
  unfold extractActivitiesWithRules in Ha.
  apply (proj1 (proj1 (proj2 (set_of_array_facts (extractedPhrases text))) a))
    in Ha.
  unfold extractedPhrases in Ha.
  apply in_flat_map in Ha as (sentence & _ & Ha).
  unfold activitiesOfSentence in Ha.
  apply in_flat_map in Ha as (marker & _ & Ha).
  destruct (includes sentence marker); [|destruct Ha].
  destruct (search (markerRegex_at marker) sentence) as [cap|] eqn:E;
    [|destruct Ha].
  destruct Ha as [<- | []].
  split; [apply trim_trimmed|]. apply trim_Forall.
  destruct (search_spec _ _ _ E) as (pre & suf & _ & Hm & _).
  eapply markerRegex_capture, Hm.
Qed.

End SummaryAndActivities.

(* ================================================================== *)
(** * The timeline: identifiers, export, search, filters, statistics *)
(* ================================================================== *)

Section TimelineIds.

Import TimelineGenerator.

Variable Rng : Type.
Variable uuidv4 : Rng -> str * Rng.
Variable toLocaleDateString : Date -> str.

Lemma entryAt_id (analyses : list AnalysisResult) (d : DiaryContent)
      (index : nat) (g : Rng) (a : AnalysisResult) :
  nth_error analyses index = Some a ->
  exists e,
    entryAt Rng uuidv4 toLocaleDateString analyses d index g
    = Ok (e, snd (uuidv4 g))
    /\ id e = fst (uuidv4 g).
Proof.
  intros Ha. unfold entryAt, mbind, fresh, at_index, ret.
  destruct (uuidv4 g) as [i0 g0]. rewrite Ha. cbn [snd fst].
  eexists; split; reflexivity.
Qed.

Lemma mapi_ids (analyses : list AnalysisResult) :
  forall (diaries : list DiaryContent) (index : nat) (g : Rng),
    (index + List.length diaries <= List.length analyses)%nat ->
    exists entries g',
      mapi Rng (entryAt Rng uuidv4 toLocaleDateString analyses) diaries index g
      = Ok (entries, g')
      /\ map id entries = draws uuidv4 g (List.length diaries).
Proof.
  induction diaries as [|d ds IH]; intros index g Hlen.
  - exists [], g. split; reflexivity.
  - cbn [List.length] in Hlen.
    destruct (nth_error analyses index) as [a0|] eqn:Ha.
    2:{ apply nth_error_None in Ha. lia. }
    destruct (entryAt_id analyses d index g a0 Ha) as (e0 & He0 & Hid).
    destruct (IH (S index) (snd (uuidv4 g))) as (es & g' & Hm & Hids); [lia|].
    exists (e0 :: es), g'. split.
    + cbn [mapi]. unfold mbind at 1. rewrite He0.
      unfold mbind at 1. rewrite Hm. reflexivity.
    + cbn [map List.length draws]. rewrite Hid, Hids. reflexivity.
Qed.

(** X15.  The identifiers of the entries are the values that the
    successive calls of [uuidv4] give, one call per entry and in the order
    of the entries; so they are pairwise distinct whenever these values
    are. *)
Theorem generateTimelineData_ids
        (diaries : list DiaryContent) (analyses : list AnalysisResult)
        (g g' : Rng) (entries : list TimelineEntry) :
  generateTimelineData Rng uuidv4 toLocaleDateString diaries analyses g
  = Ok (entries, g') ->
  map id entries = draws uuidv4 g (List.length diaries)
  /\ (NoDup (draws uuidv4 g (List.length diaries)) -> NoDup (map id entries)).
Proof.
  intros E. unfold generateTimelineData in E.
  destruct (Nat.eqb (List.length diaries) (List.length analyses)) eqn:L;
    [|discriminate].
  apply Nat.eqb_eq in L. cbn [negb] in E.
  destruct (mapi_ids analyses diaries 0 g) as (es & g0 & Hm & Hids); [lia|].
  rewrite E in Hm. inversion Hm; subst es g0.
  split; [exact Hids | rewrite Hids; auto].
Qed.

End TimelineIds.

Section TimelineViews.

Import TimelineGenerator.

Example emoji_of_scores :
  map getMoodEmoji [-3; 1; 2; 3; 4; 5; 9]
  = [js "😢"; js "😢"; js "😔"; js "😐"; js "😊"; js "😄"; js "😄"].
Proof. reflexivity. Qed.

(** X16.  [getMoodEmoji] always returns one of the five emojis: the one at
    place [score - 1] for a score from 1 to 5, the first for every lower
    score and the last for every higher one. *)
Theorem getMoodEmoji_clamp (score : Z) :
  In (getMoodEmoji score) emojis
  /\ (1 <= score <= 5 ->
      nth_error emojis (Z.to_nat (score - 1)) = Some (getMoodEmoji score))
  /\ (score <= 1 -> getMoodEmoji score = js "😢")
  /\ (5 <= score -> getMoodEmoji score = js "😄").
Proof.
  unfold getMoodEmoji.
  set (k := Z.min (Z.max (score - 1) 0) 4).
  assert (Hk : k = 0 \/ k = 1 \/ k = 2 \/ k = 3 \/ k = 4) by lia.
  split; [|split; [|split]].
  - destruct Hk as [-> | [-> | [-> | [-> | ->]]]]; cbn; tauto.
  - intros H. replace (score - 1) with k by lia.
    destruct Hk as [-> | [-> | [-> | [-> | ->]]]]; reflexivity.
  - intros H. replace k with 0 by lia. reflexivity.
  - intros H. replace k with 4 by lia. reflexivity.
Qed.

Section Markdown.

Variable toLocaleDateString : Date -> str.

(** X17.  The Markdown export puts one section per entry, in order, with
    one line feed between two sections: the export of two non-empty
    timelines put end to end is their exports with a line feed between,
    and the export of no entry is the empty string. *)
Theorem exportTimelineMarkdown_app (a b : list TimelineEntry) :
  a <> [] -> b <> [] ->
  exportTimelineMarkdown toLocaleDateString (a ++ b)
  = exportTimelineMarkdown toLocaleDateString a ++ [10%N]
    ++ exportTimelineMarkdown toLocaleDateString b
  /\ exportTimelineMarkdown toLocaleDateString [] = [].
Proof.
  intros Ha Hb. split; [|reflexivity].
  unfold exportTimelineMarkdown. rewrite map_app.
  apply join_app; intros E; apply map_eq_nil in E; contradiction.
Qed.

End Markdown.

Section SearchFacts.

Variable toLowerCase : str -> str.

Lemma existsb_includes_narrow (l : list str) (p p' : str) :
  substring_of p p' ->
  existsb (fun k => includes (toLowerCase k) p') l = true ->
  existsb (fun k => includes (toLowerCase k) p) l = true.
Proof.
  intros Hs. rewrite !existsb_exists. intros (x & Hx & Hi).
  exists x. split; [exact Hx|].
  apply includes_spec. eapply substring_of_trans; [exact Hs|].
  apply includes_spec, Hi.
Qed.

(** X18.  Search keeps entries in their order; a term whose lower-case
    form is empty keeps every entry; and a term whose lower-case form holds
    that of another term finds no entry that the other term does not
    find. *)
Theorem searchEntriesByKeyword_narrow
        (entries : list TimelineEntry) (k k' : str) :
  (toLowerCase k = [] ->
   searchEntriesByKeyword toLowerCase entries k = entries)
  /\ (substring_of (toLowerCase k) (toLowerCase k') ->
      forall e, In e (searchEntriesByKeyword toLowerCase entries k') ->
                In e (searchEntriesByKeyword toLowerCase entries k))
  /\ (forall e, In e (searchEntriesByKeyword toLowerCase entries k) ->
                In e entries).
Proof.
  unfold searchEntriesByKeyword. split; [|split].
  - intros ->. induction entries as [|e es IH]; [reflexivity|].
    cbn [filter]. rewrite includes_empty, orb_true_r. cbn [orb].
    f_equal. exact IH.
  - intros Hs e. rewrite !filter_In. intros [He Hp]. split; [exact He|].
    rewrite !orb_true_iff in *. destruct Hp as [[Hp | Hp] | Hp].
    + left; left. eapply existsb_includes_narrow; eassumption.
    + left; right. apply includes_spec.
      eapply substring_of_trans; [exact Hs | apply includes_spec, Hp].
    + right. eapply existsb_includes_narrow; eassumption.
  - intros e He. apply filter_In in He. tauto.
Qed.

End SearchFacts.

Lemma filter_comm {A} (f g : A -> bool) (l : list A) :
  filter f (filter g l) = filter g (filter f l).
Proof.
  induction l as [|x l IH]; [reflexivity|].
  cbn [filter]. destruct (f x) eqn:Ef, (g x) eqn:Eg; cbn [filter];
    rewrite ?Ef, ?Eg, IH; reflexivity.
Qed.

(** X19.  [filterEntriesByMoodRange] keeps, in their order, exactly the
    entries whose mood score lies between the two bounds, both included;
    it keeps none when the lower bound exceeds the upper; and it commutes
    with the filter by date range. *)
Theorem filterEntriesByMoodRange_spec
        (entries : list TimelineEntry) (minScore maxScore : Z)
        (startDate endDate : option Date) :
  (forall e, In e (filterEntriesByMoodRange entries minScore maxScore)
             <-> In e entries /\ minScore <= moodScore e <= maxScore)
  /\ (maxScore < minScore ->
      filterEntriesByMoodRange entries minScore maxScore = [])
  /\ filterEntriesByMoodRange
       (filterEntriesByDateRange entries startDate endDate) minScore maxScore
     = filterEntriesByDateRange
         (filterEntriesByMoodRange entries minScore maxScore) startDate endDate.
Proof.
  unfold filterEntriesByMoodRange, filterEntriesByDateRange.
  split; [|split].
  - intros e. rewrite filter_In, andb_true_iff, Z.geb_le, Z.leb_le. tauto.
  - intros H. induction entries as [|e es IH]; [reflexivity|].
    cbn [filter].
    destruct ((moodScore e >=? minScore) && (moodScore e <=? maxScore)) eqn:E;
      [|exact IH].
    apply andb_true_iff in E as [E1 E2].
    apply Z.geb_le in E1. apply Z.leb_le in E2. lia.
  - apply filter_comm.
Qed.

(** ** Mood distribution *)

Lemma count_where_nonneg (p : TimelineEntry -> bool) (es : list TimelineEntry) :
  0 <= count_where p es.
Proof. unfold count_where. lia. Qed.

Lemma count_where_cons (p : TimelineEntry -> bool) (e : TimelineEntry)
      (es : list TimelineEntry) :
  count_where p (e :: es) = (if p e then 1 else 0) + count_where p es.
Proof.
  unfold count_where. cbn [filter]. destruct (p e); cbn [List.length]; lia.
Qed.

Lemma distribution_fold (es : list TimelineEntry) (k : Z) :
  forall d0 : record_t,
    fold_left countScore es d0 k
    = if count_where (scoreIs k) es =? 0 then d0 k
      else Some (or_zero (d0 k) + count_where (scoreIs k) es).
Proof.
  induction es as [|e es IH]; intros d0; [reflexivity|].
  cbn [fold_left]. rewrite IH, count_where_cons.
  pose proof (count_where_nonneg (scoreIs k) es) as Hn.
  set (c := count_where (scoreIs k) es) in *.
  unfold countScore, scoreIs. rewrite (Z.eqb_sym (moodScore e) k).
  destruct (Z.eqb_spec k (moodScore e)) as [E | E].
  - rewrite <- E. cbn [or_zero].
    destruct (Z.eqb_spec c 0) as [C | C]; [rewrite C; reflexivity|].
    destruct (Z.eqb_spec (1 + c) 0); [lia|]. f_equal. lia.
  - rewrite Z.add_0_l. reflexivity.
Qed.

Lemma five_buckets (es : list TimelineEntry) :
  (forall e, In e es -> 1 <= moodScore e <= 5) ->
  count_where (scoreIs 1) es + count_where (scoreIs 2) es
  + count_where (scoreIs 3) es + count_where (scoreIs 4) es
  + count_where (scoreIs 5) es
  = Z.of_nat (List.length es).
Proof.
  induction es as [|e es IH]; intros H; [reflexivity|].
  rewrite !count_where_cons. cbn [List.length].
  specialize (IH (fun x Hx => H x (or_intror Hx))).
  specialize (H e (or_introl eq_refl)). unfold scoreIs at 1 3 5 7 9.
  repeat match goal with
         | |- context [?a =? ?b] => destruct (Z.eqb_spec a b)
         end; lia.
Qed.

(** X20.  In the mood distribution every bucket holds the number of
    entries with that score: the buckets 1 to 5 are always there (with 0
    when no entry has the score), any other bucket is there only when some
    entry has that score; and when all scores lie in [1, 5] the five
    buckets add up to the number of entries. *)
Theorem calculateMoodDistribution_buckets (entries : list TimelineEntry) :
  let d := calculateMoodDistribution entries in
  let n := fun k => count_where (scoreIs k) entries in
  (forall k, 1 <= k <= 5 -> d k = Some (n k))
  /\ (forall k, ~ 1 <= k <= 5 -> d k = if 0 <? n k then Some (n k) else None)
  /\ ((forall e, In e entries -> 1 <= moodScore e <= 5) ->
      or_zero (d 1) + or_zero (d 2) + or_zero (d 3) + or_zero (d 4)
      + or_zero (d 5)
      = Z.of_nat (List.length entries)).
Proof.
  intros d n.
  assert (B : forall k, 1 <= k <= 5 -> d k = Some (n k)).
  { intros k Hk. unfold d, calculateMoodDistribution. rewrite distribution_fold.
    fold (n k). unfold initialDistribution.
    destruct (Z.leb_spec 1 k), (Z.leb_spec k 5); try lia. cbn [andb or_zero].
    destruct (Z.eqb_spec (n k) 0) as [-> | _]; reflexivity. }
  split; [exact B|]. split.
  - intros k Hk. unfold d, calculateMoodDistribution. rewrite distribution_fold.
    fold (n k). pose proof (count_where_nonneg (scoreIs k) entries) as Hn.
    fold (n k) in Hn. unfold initialDistribution.
    assert (E : (1 <=? k) && (k <=? 5) = false).
    { destruct (Z.leb_spec 1 k), (Z.leb_spec k 5); try reflexivity. lia. }
    rewrite E. cbn [or_zero].
    destruct (Z.eqb_spec (n k) 0) as [-> | Hne]; [reflexivity|].
    destruct (Z.ltb_spec 0 (n k)); [reflexivity | lia].
  - intros H. rewrite !B by lia. cbn [or_zero]. apply five_buckets, H.
Qed.

End TimelineViews.

Section TimelineCounts.

Import TimelineGenerator.

Lemma total_count (m : map_t) (k : str) : total (countKeyword m k) = total m + 1.
Proof.
  unfold countKeyword.
  induction m as [|[k' v'] m IH]; cbn [map_set map_get total fold_right snd].
  - cbn [or_zero]. lia.
  - destruct (eqb k' k); cbn [total fold_right snd or_zero].
    + fold (total m). lia.
    + fold (total m) (total (map_set m k (or_zero (map_get m k) + 1))). lia.
Qed.

Lemma total_count_all (ks : list str) :
  forall m, total (fold_left countKeyword ks m) = total m + Z.of_nat (List.length ks).
Proof.
  induction ks as [|k ks IH]; intros m; cbn [fold_left List.length]; [lia|].
  rewrite IH, total_count. lia.
Qed.

(** The counting map of a key list: each distinct key once, in the order
    of first occurrence, with its number of occurrences. *)
Lemma counting_map_facts (ks : list str) :
  let m := fold_left countKeyword ks [] in
  NoDup (map fst m)
  /\ (forall k c, In (k, c) m <-> In k ks /\ c = occurrences k ks)
  /\ total m = Z.of_nat (List.length ks).
Proof.
  intros m.
  assert (Hkeys : map fst m = set_of_array ks)
    by (unfold m; rewrite count_all_keys; reflexivity).
  destruct (set_of_array_facts ks) as (Hnd & Hin & _).
  assert (Hndm : NoDup (map fst m)) by (rewrite Hkeys; exact Hnd).
  assert (Hcount : forall k c, In (k, c) m -> c = occurrences k ks).
  { intros k c H. apply map_get_In in H; auto.
    pose proof (count_all_count ks k []) as C. fold m in C.
    rewrite H in C. cbn in C. exact C. }
  split; [exact Hndm|]. split.
  - intros k c. split.
    + intros H. split; [|apply Hcount, H].
      apply Hin. rewrite <- Hkeys. change k with (fst (k, c)). apply in_map, H.
    + intros [Hk ->]. apply Hin in Hk. rewrite <- Hkeys in Hk.
      apply in_map_iff in Hk as ([k' c'] & Hf & Hk). cbn in Hf; subst k'.
      rewrite <- (Hcount _ _ Hk). exact Hk.
  - unfold m. rewrite total_count_all. reflexivity.
Qed.

Lemma count_activities_flat (entries : list TimelineEntry) :
  forall m : map_t,
    fold_left
      (fun activityCount entry =>
         fold_left countActivity (activities entry) activityCount)
      entries m
    = fold_left countKeyword (allActivities entries) m.
Proof.
  induction entries as [|e es IH]; intros m; [reflexivity|].
  cbn [fold_left]. unfold allActivities. cbn [flat_map].
  rewrite fold_left_app. apply IH.
Qed.

Example top_activities_tie :
  findTopActivities
    [mkTimelineEntry [] (mkDate 0) [] [] [] 3 [js "跑步"; js "读书"];
     mkTimelineEntry [] (mkDate 0) [] [] [] 3 [js "读书"; js "做饭"; js "跑步"]]
    (Some 2)
  = [(js "跑步", 2); (js "读书", 2)].
Proof. reflexivity. Qed.

(** X21.  [findTopActivities] returns the first [limit] pairs (10 when no
    limit is passed, [limit >= 0]) of a ranking of the activities of all
    entries: every distinct activity once, with the number of its
    occurrences, by descending count and, among equal counts, in the order
    of first occurrence. *)
Theorem findTopActivities_spec (entries : list TimelineEntry) (limit : option Z) :
  let n := match limit with Some n => n | None => 10 end in
  let ks := allActivities entries in
  0 <= n ->
  exists ranked : list (str * Z),
    findTopActivities entries limit = firstn (Z.to_nat n) ranked
    /\ NoDup (map fst ranked)
    /\ (forall k c, In (k, c) ranked <-> In k ks /\ c = occurrences k ks)
    /\ StronglySorted (ranks_before ks) (map fst ranked).
Proof.
  intros n ks Hn.
  exists (sort byCountDesc (fold_left countKeyword ks [])).
  split; [|apply ranking_facts].
  unfold findTopActivities. fold n.
  rewrite count_activities_flat, slice0_firstn by exact Hn. reflexivity.
Qed.

Section MonthFacts.

Variable toISOString : Date -> str.

Lemma months_fold (entries : list TimelineEntry) :
  forall m : map_t,
    fold_left
      (fun monthlyCount entry =>
         let monthKey := monthKeyOf toISOString entry in
         map_set monthlyCount monthKey
                 (or_zero (map_get monthlyCount monthKey) + 1))
      entries m
    = fold_left countKeyword (map (monthKeyOf toISOString) entries) m.
Proof.
  induction entries as [|e es IH]; intros m; [reflexivity|].
  cbn [fold_left map]. rewrite IH. reflexivity.
Qed.

(** X22.  The entries-per-month record has one key for each month key
    that occurs (the first seven code units of an entry's ISO date), holding
    the number of entries with that key; its counts add up to the number of
    entries. *)
Theorem calculateEntriesPerMonth_counts (entries : list TimelineEntry) :
  let keys := map (monthKeyOf toISOString) entries in
  let m := calculateEntriesPerMonth toISOString entries in
  NoDup (map fst m)
  /\ (forall k c, In (k, c) m <-> In k keys /\ c = occurrences k keys)
  /\ (forall k, or_zero (map_get m k) = occurrences k keys)
  /\ total m = Z.of_nat (List.length entries).
Proof.
  intros keys m.
  assert (E : m = fold_left countKeyword keys [])
    by (unfold m, calculateEntriesPerMonth; apply months_fold).
  destruct (counting_map_facts keys) as (Hnd & Hin & Ht).
  rewrite <- E in Hnd, Hin, Ht.
  split; [exact Hnd|]. split; [exact Hin|]. split.
  - intros k. rewrite E, count_all_count. reflexivity.
  - rewrite Ht. unfold keys. rewrite length_map. reflexivity.
Qed.

End MonthFacts.

End TimelineCounts.

(* ================================================================== *)
(** * From the parsed diaries to the timeline *)
(* ================================================================== *)

Section PipelineFacts.

Import ContentAnalyzer.
Import Plugin.

Variable Rng : Type.
Variable uuidv4 : Rng -> str * Rng.
Variable toLocaleDateString : Date -> str.

Lemma all_map_ok {A B} (f : A -> result B) (l : list A) :
  forall rs, all (map f l) = Ok rs -> Forall2 (fun x r => f x = Ok r) l rs.
Proof.
  induction l as [|x l IH]; intros rs; cbn [map all].
  - intros H; inversion H; constructor.
  - destruct (f x) as [r|e] eqn:E; cbn [bind]; [|discriminate].
    destruct (all (map f l)) as [rs'|e]; cbn [bind]; [|discriminate].
    intros H; inversion H; subst. constructor; [exact E | apply IH; reflexivity].
Qed.

Lemma Forall2_nth {A B} (R : A -> B -> Prop) (l : list A) (rs : list B) :
  Forall2 R l rs ->
  forall i x r, nth_error l i = Some x -> nth_error rs i = Some r -> R x r.
Proof.
  induction 1 as [|x0 r0 l rs H0 H IH]; intros [|i] x r Hx Hr;
    try discriminate.
  - cbn in Hx, Hr. inversion Hx; inversion Hr; subst. exact H0.
  - cbn in Hx, Hr. eapply IH; eassumption.
Qed.

Lemma analyze_ok_mood (self : t) (d : DiaryContent) (a : AnalysisResult) :
  analyze self d = Ok a -> 1 <= ar_moodScore a <= 5.
Proof.
  unfold analyze.
  destruct (extractKeywords self (content d)); cbn [bind]; [|discriminate].
  pose proof (analyzeMoodScore_range_aux self (content d)) as Hr.
  destruct (analyzeMoodScore self (content d)); cbn [bind]; [|discriminate].
  destruct (extractActivities self (content d)); cbn [bind]; [|discriminate].
  destruct (generateSummary self (content d)); cbn [bind]; [|discriminate].
  intros H; inversion H; subst. exact Hr.
Qed.

Lemma analyze_heuristic_ok (self : t) (d : DiaryContent) :
  openAI self = None -> ollama self = None -> exists a, analyze self d = Ok a.
Proof.
  intros H1 H2.
  assert (Hs : hasService self = false)
    by (unfold hasService; rewrite H1, H2; reflexivity).
  pose proof (analyzeMoodScore_range_aux self (content d)) as Hr.
  unfold analyze, extractKeywords, extractActivities, generateSummary.
  rewrite H1, H2, Hs. cbn [bind].
  destruct (analyzeMoodScore self (content d)); cbn [bind].
  - eexists; reflexivity.
  - rewrite Hs in Hr. discriminate.
Qed.

Lemma all_heuristic_ok (self : t) (ds : list DiaryContent) :
  openAI self = None -> ollama self = None ->
  exists analyses, all (map (fun d => analyze self d) ds) = Ok analyses.
Proof.
  intros H1 H2. induction ds as [|d ds (rs & IH)]; cbn [map all].
  - eexists; reflexivity.
  - destruct (analyze_heuristic_ok self d H1 H2) as [a ->]. cbn [bind].
    rewrite IH. cbn [bind]. eexists; reflexivity.
Qed.

Lemma timeline_builds (self : t) (ds : list DiaryContent)
      (analyses : list AnalysisResult) (g : Rng) :
  all (map (fun d => analyze self d) ds) = Ok analyses ->
  exists entries g',
    timelineEntries Rng uuidv4 toLocaleDateString self ds g = Ok (entries, g')
    /\ List.length entries = List.length ds
    /\ Forall (fun e => 1 <= moodScore e <= 5) entries.
Proof.
  intros Hall. unfold timelineEntries. rewrite Hall. cbn [bind].
  pose proof (all_map_ok _ _ _ Hall) as F.
  pose proof (Forall2_length F) as L.
  destruct (generate_ok Rng uuidv4 toLocaleDateString ds analyses g L)
    as (es & g' & E & Hl & Hi).
  exists es, g'. split; [exact E|]. split; [exact Hl|].
  apply Forall_forall. intros e He.
  apply In_nth_error in He as [i Hi'].
  assert (Hlt : (i < List.length es)%nat)
    by (apply nth_error_Some; congruence).
  destruct (nth_error ds i) as [d|] eqn:Hd.
  2:{ apply nth_error_None in Hd. lia. }
  destruct (nth_error analyses i) as [a|] eqn:Ha.
  2:{ apply nth_error_None in Ha. lia. }
  destruct (Hi i d a Hd Ha) as (e' & He' & P).
  rewrite Hi' in He'. inversion He'; subst e'.
  destruct P as (_ & _ & _ & _ & Hm & _). rewrite Hm.
  eapply analyze_ok_mood. exact (Forall2_nth _ _ _ F i d a Hd Ha).
Qed.

(** X23.  In the plugin's pipeline the timeline is always built from as
    many analyses as diaries: whenever all analyses fulfil, building the
    timeline succeeds, with one entry per diary and every mood score in
    [1, 5]; and with no service configured the whole pipeline never
    throws. *)
Theorem timelineEntries_builds (self : t) (ds : list DiaryContent) (g : Rng) :
  (forall analyses,
      all (map (fun d => analyze self d) ds) = Ok analyses ->
      exists entries g',
        timelineEntries Rng uuidv4 toLocaleDateString self ds g
        = Ok (entries, g')
        /\ List.length entries = List.length ds
        /\ Forall (fun e => 1 <= moodScore e <= 5) entries)
  /\ (openAI self = None -> ollama self = None ->
      exists entries g',
        timelineEntries Rng uuidv4 toLocaleDateString self ds g
        = Ok (entries, g')
        /\ List.length entries = List.length ds
        /\ Forall (fun e => 1 <= moodScore e <= 5) entries).
Proof.
  split.
  - intros analyses. apply timeline_builds.
  - intros H1 H2. destruct (all_heuristic_ok self ds H1 H2) as [analyses Ha].
    eapply timeline_builds, Ha.
Qed.

End PipelineFacts.

(* ================================================================== *)
(** * Files, names and titles *)
(* ================================================================== *)

Section FilesAndTitles.

Import DiaryParser.

Lemma startsWith_prefix (s p : str) :
  startsWith s p = true <-> exists rest, s = p ++ rest.
Proof.
  split; [apply startsWith_split|]. intros [rest ->]. apply startsWith_app.
Qed.

(** X24.  [scanDiaryFiles] keeps, in their order, exactly the files whose
    extension is [md] and whose path begins with the text of the diary
    folder: a plain prefix of the path, with no separator asked for after
    it. *)
Theorem scanDiaryFiles_prefix (self : t) (files : list TFile) (file : TFile) :
  (In file (scanDiaryFiles self files)
   <-> In file files
       /\ extension file = js "md"
       /\ exists rest, path file = diaryFolder self ++ rest)
  /\ scanDiaryFiles self (scanDiaryFiles self files) = scanDiaryFiles self files
  /\ (List.length (scanDiaryFiles self files) <= List.length files)%nat.
Proof.
  unfold scanDiaryFiles. split; [|split].
  - rewrite filter_In, andb_true_iff, startsWith_prefix, eqb_eq. tauto.
  - induction files as [|f fs IH]; [reflexivity|].
    cbn [filter].
    destruct (startsWith (path f) (diaryFolder self)
              && eqb (extension f) (js "md")) eqn:E; [|exact IH].
    cbn [filter]. rewrite E, IH. reflexivity.
  - apply filter_length_le.
Qed.

Section NameDecides.

Variable moment : str -> str -> option Date.

(** X25.  For a file name with at most one dot, the date is the one the
    parser reads from the name without its extension whenever that is
    valid, whatever the body and the clock. *)
Theorem extractDateInfo_one_dot
        (self : t) (fileName body : str) (now d : Date) :
  (dots fileName <= 1)%nat ->
  moment (stripExtension fileName) (dateFormat self) = Some d ->
  extractDateInfo moment self fileName body now = d.
Proof.
  intros Hd Hm. unfold extractDateInfo, split.
  rewrite first_piece_stripExtension by exact Hd.
  cbn [rev app]. rewrite Hm. reflexivity.
Qed.

Variable read : TFile -> result str.
Variable clock : nat -> Date.

(** X26.  For every record of a batch parse, an analysis that fulfils has
    as its mood score the mood of the record's metadata whenever that lies
    in [1, 5], in every configuration of services. *)
Theorem parsed_mood_wins
        (parser : t) (files : list TFile) (analyzer : ContentAnalyzer.t)
        (record : DiaryContent) (n : Z) (a : AnalysisResult) :
  In record (parseMultipleDiaries moment read clock parser files) ->
  mood (metadata record) = Some n ->
  1 <= n <= 5 ->
  ContentAnalyzer.analyze analyzer record = Ok a ->
  ar_moodScore a = n.
Proof.
  intros Hin Hm Hr Ha.
  destruct (parseMultipleDiaries_from_facts moment read clock parser files 0)
    as (Hp & _).
  fold (parseMultipleDiaries moment read clock parser files) in Hp.
  rewrite Forall_forall in Hp. specialize (Hp _ Hin). unfold parsed in Hp.
  rewrite Hp in Hm.
  unfold ContentAnalyzer.analyze in Ha.
  destruct (ContentAnalyzer.extractKeywords analyzer (content record));
    cbn [bind] in Ha; [|discriminate].
  rewrite analyzeMoodScore_by_metadata, Hm in Ha.
  apply in_range_true in Hr. rewrite Hr in Ha. cbn [bind] in Ha.
  destruct (ContentAnalyzer.extractActivities analyzer (content record));
    cbn [bind] in Ha; [|discriminate].
  destruct (ContentAnalyzer.generateSummary analyzer (content record));
    cbn [bind] in Ha; [|discriminate].
  inversion Ha; subst. reflexivity.
Qed.

End NameDecides.

Section Titles.

Import TimelineGenerator.

Variable Rng : Type.
Variable uuidv4 : Rng -> str * Rng.
Variable toLocaleDateString : Date -> str.

Lemma titleOf_nonempty (d : DiaryContent) : titleOf toLocaleDateString d <> [].
Proof.
  assert (G : generateTitle toLocaleDateString (dc_date d) <> []).
  { unfold generateTitle. intros E. apply app_eq_nil in E as [_ E].
    vm_compute in E. discriminate. }
  unfold titleOf. destruct (title (metadata d)) as [[|c t]|]; cbn [truthy];
    [exact G | discriminate | exact G].
Qed.

(** X27.  No entry of a generated timeline has an empty title. *)
Theorem generateTimelineData_titles_nonempty
        (diaries : list DiaryContent) (analyses : list AnalysisResult)
        (g g' : Rng) (entries : list TimelineEntry) :
  generateTimelineData Rng uuidv4 toLocaleDateString diaries analyses g
  = Ok (entries, g') ->
  Forall (fun e => te_title e <> []) entries.
Proof.
  intros E.
  destruct (Nat.eq_dec (List.length diaries) (List.length analyses)) as [L|L].
  2:{ unfold generateTimelineData in E. apply Nat.eqb_neq in L.
      rewrite L in E. discriminate. }
  destruct (generate_ok Rng uuidv4 toLocaleDateString diaries analyses g L)
    as (es & g0 & E' & Hl & I).
  rewrite E in E'. inversion E'; subst es g0.
  apply Forall_forall. intros e He.
  apply In_nth_error in He as [i Hi].
  assert (Hlt : (i < List.length entries)%nat)
    by (apply nth_error_Some; congruence).
  destruct (nth_error diaries i) as [d|] eqn:Hd.
  2:{ apply nth_error_None in Hd. lia. }
  destruct (nth_error analyses i) as [a|] eqn:Ha.
  2:{ apply nth_error_None in Ha. lia. }
  destruct (I i d a Hd Ha) as (e' & He' & _ & Ht & _).
  rewrite Hi in He'. inversion He'; subst e'.
  rewrite Ht. apply titleOf_nonempty.
Qed.

End Titles.

End FilesAndTitles.

(* ================================================================== *)
(** * Instances *)
(* ================================================================== *)

Lemma extractKeywords_with_service_witness :
  let response := js "工作, 学习 ,休息" in
  let service := ContentAnalyzer.mkService (fun _ => Ok response) in
  let self := ContentAnalyzer.mk (Some service) None 2 in
  let text := js "今天工作和学习" in
  backend self = Some service
  /\ ContentAnalyzer.complete service (ContentAnalyzer.keywordsPrompt self text)
     = Ok response
  /\ 0 <= ContentAnalyzer.maxKeywords self
  /\ exists ks,
      ContentAnalyzer.extractKeywords self text = Ok ks
      /\ ks = firstn (Z.to_nat (ContentAnalyzer.maxKeywords self))
                     (map trim (split response (js ",")))
      /\ Z.of_nat (List.length ks) <= ContentAnalyzer.maxKeywords self
      /\ (1 <= ContentAnalyzer.maxKeywords self -> ks <> [])
      /\ Forall (fun k => trimmed k /\ ~ In 44%N k) ks.
Proof.
  intros response service self text.
  assert (H1 : backend self = Some service) by reflexivity.
  assert (H2 : ContentAnalyzer.complete
                 service (ContentAnalyzer.keywordsPrompt self text)
               = Ok response) by reflexivity.
  assert (H3 : 0 <= ContentAnalyzer.maxKeywords self) by (cbn; lia).
  split; [exact H1|]. split; [exact H2|]. split; [exact H3|].
  exact (extractKeywords_with_service self text service response H1 H2 H3).
Defined.

Lemma service_answer_read_back_witness :
  let l := [js "跑步"; js "读书"] in
  let service := ContentAnalyzer.mkService (fun _ => Ok (join (js ",") l)) in
  let self := ContentAnalyzer.mk None (Some service) 5 in
  let text := js "今天去跑步" in
  backend self = Some service
  /\ l <> []
  /\ Forall (fun a => trimmed a /\ ~ In 44%N a) l
  /\ (ContentAnalyzer.complete service (ContentAnalyzer.activitiesPrompt text)
      = Ok (join (js ",") l) ->
      ContentAnalyzer.extractActivities self text = Ok l)
  /\ (ContentAnalyzer.complete service (ContentAnalyzer.keywordsPrompt self text)
      = Ok (join (js ",") l) ->
      Z.of_nat (List.length l) <= ContentAnalyzer.maxKeywords self ->
      ContentAnalyzer.extractKeywords self text = Ok l).
Proof.
  intros l service self text.
  assert (H1 : backend self = Some service) by reflexivity.
  assert (H2 : l <> []) by discriminate.
  assert (H3 : Forall (fun a => trimmed a /\ ~ In 44%N a) l).
  { repeat constructor;
      try (intros H; vm_compute in H; intuition discriminate). }
  split; [exact H1|]. split; [exact H2|]. split; [exact H3|].
  exact (service_answer_read_back self text service l H1 H2 H3).
Defined.

Lemma extractKeywordsWithFrequency_count_witness :
  let self := ContentAnalyzer.mk None None 5 in
  let text := js "读书 a 读书 跑步 b" in
  0 <= ContentAnalyzer.maxKeywords self
  /\ Z.of_nat (List.length (ContentAnalyzer.extractKeywordsWithFrequency self text))
     = Z.min (ContentAnalyzer.maxKeywords self)
             (Z.of_nat (List.length (set_of_array (tokens text))))
  /\ NoDup (ContentAnalyzer.extractKeywordsWithFrequency self text).
Proof.
  intros self text.
  assert (H : 0 <= ContentAnalyzer.maxKeywords self) by (cbn; lia).
  split; [exact H|].
  exact (extractKeywordsWithFrequency_count self text H).
Defined.

Lemma analyze_heuristic_witness :
  let self := ContentAnalyzer.mk None None 5 in
  let diary := mkDiaryContent (utcDay 2024 1 15) (js "今天去公园。很开心")
                              (mkMetadata None None None) in
  ContentAnalyzer.openAI self = None
  /\ ContentAnalyzer.ollama self = None
  /\ 0 <= ContentAnalyzer.maxKeywords self
  /\ exists a,
      ContentAnalyzer.analyze self diary = Ok a
      /\ ar_keywords a
         = ContentAnalyzer.extractKeywordsWithFrequency self (content diary)
      /\ ar_summary a = ContentAnalyzer.generateSimpleSummary (content diary)
      /\ ar_activities a
         = ContentAnalyzer.extractActivitiesWithRules (content diary)
      /\ ContentAnalyzer.analyzeMoodScore self (content diary)
         = Ok (ar_moodScore a)
      /\ wellFormed (ContentAnalyzer.maxKeywords self) a.
Proof.
  intros self diary.
  assert (H : 0 <= ContentAnalyzer.maxKeywords self) by (cbn; lia).
  split; [reflexivity|]. split; [reflexivity|]. split; [exact H|].
  exact (analyze_heuristic self diary eq_refl eq_refl H).
Defined.

Lemma analyze_no_fallback_witness :
  let e := Error (js "Failed to generate completion with OpenAI") in
  let service := ContentAnalyzer.mkService (fun _ => Throw e) in
  let self := ContentAnalyzer.mk (Some service) None 5 in
  let diary := mkDiaryContent (utcDay 2024 1 15) (js "今天去公园。很开心")
                              (mkMetadata None None None) in
  backend self = Some service
  /\ ContentAnalyzer.complete
       service (ContentAnalyzer.keywordsPrompt self (content diary)) = Throw e
  /\ exists e', ContentAnalyzer.analyze self diary = Throw e'.
Proof.
  intros e service self diary.
  split; [reflexivity|]. split; [reflexivity|].
  exact (analyze_no_fallback self diary service e eq_refl eq_refl).
Defined.

Lemma generateTimelineData_ids_witness :
  let uuidv4 := fun n : nat => ([N.of_nat n], S n) in
  let fmt := fun _ : Date => js "2024年1月15日" in
  let diaries := [blankHeading; blankHeading] in
  let analyses := [someAnalysis; someAnalysis] in
  let entries :=
    match TimelineGenerator.generateTimelineData nat uuidv4 fmt diaries analyses 7%nat with
    | Ok (es, _) => es
    | Throw _ => []
    end in
  TimelineGenerator.generateTimelineData nat uuidv4 fmt diaries analyses 7%nat
  = Ok (entries, 9%nat)
  /\ map id entries = draws uuidv4 7%nat (List.length diaries)
  /\ (NoDup (draws uuidv4 7%nat (List.length diaries)) -> NoDup (map id entries)).
Proof.
  intros uuidv4 fmt diaries analyses entries.
  assert (H : TimelineGenerator.generateTimelineData
                nat uuidv4 fmt diaries analyses 7%nat = Ok (entries, 9%nat))
    by (vm_compute; reflexivity).
  split; [exact H|].
  exact (generateTimelineData_ids nat uuidv4 fmt diaries analyses 7%nat 9%nat
                                  entries H).
Defined.

Lemma exportTimelineMarkdown_app_witness :
  let fmt := fun _ : Date => js "2024/1/15" in
  let a := [entryOn (utcDay 2024 1 15)] in
  let b := [entryWith [js "工作"; js "学习"]] in
  a <> [] /\ b <> []
  /\ TimelineGenerator.exportTimelineMarkdown fmt (a ++ b)
     = TimelineGenerator.exportTimelineMarkdown fmt a ++ [10%N]
       ++ TimelineGenerator.exportTimelineMarkdown fmt b
  /\ TimelineGenerator.exportTimelineMarkdown fmt [] = [].
Proof.
  intros fmt a b.
  assert (Ha : a <> []) by discriminate.
  assert (Hb : b <> []) by discriminate.
  split; [exact Ha|]. split; [exact Hb|].
  exact (exportTimelineMarkdown_app fmt a b Ha Hb).
Defined.

Lemma findTopActivities_witness :
  let entries :=
    [mkTimelineEntry [] (mkDate 0) [] [] [] 3 [js "跑步"; js "读书"];
     mkTimelineEntry [] (mkDate 0) [] [] [] 3 [js "读书"; js "跑步"]] in
  0 <= 10
  /\ exists ranked : list (str * Z),
      TimelineGenerator.findTopActivities entries None = firstn (Z.to_nat 10) ranked
      /\ NoDup (map fst ranked)
      /\ (forall k c, In (k, c) ranked
                      <-> In k (allActivities entries)
                          /\ c = occurrences k (allActivities entries))
      /\ StronglySorted (ranks_before (allActivities entries)) (map fst ranked).
Proof.
  intros entries.
  assert (H : 0 <= 10) by lia.
  split; [exact H|].
  exact (findTopActivities_spec entries None H).
Defined.

Lemma extractDateInfo_one_dot_witness :
  let moment := fun (s _ : str) =>
                  if eqb s (js "2024-01-15") then Some (utcDay 2024 1 15) else None in
  let self := DiaryParser.mk (js "diary") (js "YYYY-MM-DD") in
  let fileName := js "2024-01-15.md" in
  (dots fileName <= 1)%nat
  /\ moment (stripExtension fileName) (DiaryParser.dateFormat self)
     = Some (utcDay 2024 1 15)
  /\ DiaryParser.extractDateInfo moment self fileName (js "written on 2023-12-31")
                                 (utcDay 2030 1 1)
     = utcDay 2024 1 15.
Proof.
  intros moment self fileName.
  assert (H1 : (dots fileName <= 1)%nat) by (vm_compute; lia).
  assert (H2 : moment (stripExtension fileName) (DiaryParser.dateFormat self)
               = Some (utcDay 2024 1 15)) by (vm_compute; reflexivity).
  split; [exact H1|]. split; [exact H2|].
  exact (extractDateInfo_one_dot moment self fileName
           (js "written on 2023-12-31") (utcDay 2030 1 1) (utcDay 2024 1 15) H1 H2).
Defined.

Lemma parsed_mood_wins_witness :
  let moment := fun _ _ : str => None in
  let read := fun _ : DiaryParser.TFile => Ok (js "难过。心情：4") in
  let clock := fun _ : nat => utcDay 2024 1 15 in
  let parser := DiaryParser.mk (js "diary") (js "YYYY-MM-DD") in
  let files := [DiaryParser.mkFile (js "diary/a.md") (js "a.md") (js "a") (js "md")] in
  let analyzer := ContentAnalyzer.mk None None 5 in
  let record := DiaryParser.parseDiaryContent moment parser (js "a.md")
                  (js "难过。心情：4") (utcDay 2024 1 15) in
  let a := match ContentAnalyzer.analyze analyzer record with
           | Ok a => a
           | Throw _ => someAnalysis
           end in
  In record (DiaryParser.parseMultipleDiaries moment read clock parser files)
  /\ mood (metadata record) = Some 4
  /\ ContentAnalyzer.analyze analyzer record = Ok a
  /\ ar_moodScore a = 4.
Proof.
  intros moment read clock parser files analyzer record a.
  assert (H1 : In record (DiaryParser.parseMultipleDiaries
                            moment read clock parser files))
    by (left; reflexivity).
  assert (H2 : mood (metadata record) = Some 4) by (vm_compute; reflexivity).
  assert (H3 : ContentAnalyzer.analyze analyzer record = Ok a)
    by (vm_compute; reflexivity).
  split; [exact H1|]. split; [exact H2|]. split; [exact H3|].
  exact (parsed_mood_wins moment read clock parser files analyzer record 4 a
                          H1 H2 ltac:(lia) H3).
Defined.

Lemma generateTimelineData_titles_nonempty_witness :
  let uuidv4 := fun n : nat => ([N.of_nat n], S n) in
  let fmt := fun _ : Date => js "2024年1月15日" in
  let entries :=
    match TimelineGenerator.generateTimelineData
            nat uuidv4 fmt [blankHeading] [someAnalysis] 0%nat with
    | Ok (es, _) => es
    | Throw _ => []
    end in
  TimelineGenerator.generateTimelineData
    nat uuidv4 fmt [blankHeading] [someAnalysis] 0%nat = Ok (entries, 1%nat)
  /\ Forall (fun e => te_title e <> []) entries.
Proof.
  intros uuidv4 fmt entries.
  assert (H : TimelineGenerator.generateTimelineData
                nat uuidv4 fmt [blankHeading] [someAnalysis] 0%nat
              = Ok (entries, 1%nat)) by (vm_compute; reflexivity).
  split; [exact H|].
  exact (generateTimelineData_titles_nonempty
           nat uuidv4 fmt [blankHeading] [someAnalysis] 0%nat 1%nat entries H).
Defined.
